(** * Bunk Buzz backend: the attendance calculator, the attendance counters
    and the timetable

    A shallow embedding of
    - the virtual getters of [src/models/Subject.js]
      ([attendancePercentage], [absentLectures], [classesNeeded], [safeBunks]),
    - the bunk predictor handlers [predictBunk], [bulkPredictBunk] and
      [simulateBunks] (the second module of
      [src/controllers/profileController.js]),
    - [markAttendance], [updateAttendance], [deleteAttendance] and
      [getAttendanceStats] of [src/controllers/attendanceController.js],
    - the summaries [getSubjects] and [getSubjectStats] of
      [src/controllers/subjectController.js],
    - the timetable handlers [createTimetableEntry], [updateTimetableEntry],
      [deleteTimetableEntry] and the grouping of [getTimetable] (the third
      module of [src/controllers/profileController.js]), with the time format
      and the pre-save hook of [src/models/Timetable.js],
    and the theorems that settle the specification's claims about them,
    followed by further properties of the same code.

    Numbers.  The lecture counters are integers ([Z]).  A quotient or a
    percentage is a JavaScript Number; it is modelled by [number]: an exact
    rational, or one of the three non-finite values that a division by zero
    produces.  Arithmetic on the finite values is exact, so the model leaves
    out the rounding of binary64 (and the sign of zero); the decimal rounding
    of [toFixed(2)] is modelled.  The theorems are about this exact model; a
    second copy of the calculator, [Binary64], computes with IEEE 754 binary64
    and is evaluated at the concrete inputs that settle the claims.

    Loops.  A [while] loop is a fuelled function whose result is [None] when
    the fuel does not suffice; "the loop never exits" is "the result is [None]
    for every fuel". *)

From stdpp Require Import gmap.
From Stdlib Require Import ZArith QArith Qround Qabs Lia Lqa Bool Ascii String List.
From Stdlib Require Import SpecFloat.
Import ListNotations.

Local Open Scope Z_scope.

(** ** JavaScript numbers *)

Inductive number : Type :=
| Fin (q : Q)
| PosInf
| NegInf
| NaN.

Definition of_Z (z : Z) : number := Fin (inject_Z z).

Definition Qltb (p q : Q) : bool :=
  match (p ?= q)%Q with Lt => true | _ => false end.

Definition Qeqb (p q : Q) : bool :=
  match (p ?= q)%Q with Eq => true | _ => false end.

(** [x / y] *)
Definition ndiv (x y : number) : number :=
  match x, y with
  | NaN, _ | _, NaN => NaN
  | Fin p, Fin q =>
      if Qeqb q 0 then
        if Qeqb p 0 then NaN else if Qltb p 0 then NegInf else PosInf
      else Fin (p / q)
  | Fin _, _ => Fin 0
  | PosInf, Fin q => if Qltb q 0 then NegInf else PosInf
  | NegInf, Fin q => if Qltb q 0 then PosInf else NegInf
  | _, _ => NaN
  end.

(** [x * y] *)
Definition nmul (x y : number) : number :=
  match x, y with
  | NaN, _ | _, NaN => NaN
  | Fin p, Fin q => Fin (p * q)
  | Fin p, PosInf | PosInf, Fin p =>
      if Qeqb p 0 then NaN else if Qltb p 0 then NegInf else PosInf
  | Fin p, NegInf | NegInf, Fin p =>
      if Qeqb p 0 then NaN else if Qltb p 0 then PosInf else NegInf
  | PosInf, PosInf | NegInf, NegInf => PosInf
  | _, _ => NegInf
  end.

(** [x - y] *)
Definition nsub (x y : number) : number :=
  match x, y with
  | NaN, _ | _, NaN => NaN
  | Fin p, Fin q => Fin (p - q)
  | Fin _, PosInf => NegInf
  | Fin _, NegInf => PosInf
  | PosInf, PosInf | NegInf, NegInf => NaN
  | PosInf, _ => PosInf
  | NegInf, _ => NegInf
  end.

(** [x < y]; every comparison with [NaN] is false *)
Definition nlt (x y : number) : bool :=
  match x, y with
  | NaN, _ | _, NaN => false
  | Fin p, Fin q => Qltb p q
  | _, NegInf => false
  | NegInf, _ => true
  | PosInf, _ => false
  | _, PosInf => true
  end.

(** [x >= y] *)
Definition nge (x y : number) : bool :=
  match x, y with
  | NaN, _ | _, NaN => false
  | _, _ => negb (nlt x y)
  end.

(** The strings [x.toFixed(2)] returns: a decimal with two fraction digits,
    written here as its count of hundredths, or [ToString(x)] when [x] is not
    finite or [|x| >= 10^21]. *)
Inductive numeral : Type :=
| Hundredths (n : Z)
| Literal (x : number).

(** ECMAScript [Number.prototype.toFixed] with [fractionDigits = 2]: for
    [x >= 0] the integer [n] with [n / 100 - x] closest to zero, the larger
    one when there are two; a negative [x] is formatted through [-x]. *)
Definition nearest_hundredth (q : Q) : Z := Qfloor (q * 100 + (1 # 2)).

Definition toFixed (x : number) : numeral :=
  match x with
  | Fin q =>
      if Qle_bool (inject_Z (10 ^ 21)) (Qabs q) then Literal x
      else if Qltb q 0 then Hundredths (- nearest_hundredth (- q))
      else Hundredths (nearest_hundredth q)
  | _ => Literal x
  end.

(** [Number(s)] on such a string *)
Definition Number (s : numeral) : number :=
  match s with
  | Hundredths n => Fin (n # 100)
  | Literal x => x
  end.

(** ** src/models/Subject.js *)

Record Subject : Type := mkSubject {
  subjectUser : positive;          (* userId *)
  totalLectures : Z;
  attendedLectures : Z;
  minimumAttendance : Q
}.

(** The schema validators of [totalLectures], [attendedLectures] and
    [minimumAttendance]. *)
Definition schema_valid (s : Subject) : bool :=
  (0 <=? totalLectures s) && (0 <=? attendedLectures s)
  && (attendedLectures s <=? totalLectures s)
  && Qle_bool 0 (minimumAttendance s) && Qle_bool (minimumAttendance s) 100.

(** [attended / total * 100], the expression all four computations share. *)
Definition ratio100 (attended total : Z) : number :=
  nmul (ndiv (of_Z attended) (of_Z total)) (of_Z 100).

Definition attendancePercentage (s : Subject) : number :=
  if totalLectures s =? 0 then of_Z 0
  else Number (toFixed (ratio100 (attendedLectures s) (totalLectures s))).

Definition absentLectures (s : Subject) : Z :=
  totalLectures s - attendedLectures s.

(** [while (((attended + needed + 1) / (total + needed + 1)) * 100 < minimum) needed++] *)
Fixpoint classesNeeded_loop (fuel : nat) (attended total : Z) (minimum : Q)
    (needed : Z) : option Z :=
  match fuel with
  | O => None
  | S fuel' =>
      if nlt (ratio100 (attended + needed + 1) (total + needed + 1)) (Fin minimum)
      then classesNeeded_loop fuel' attended total minimum (needed + 1)
      else Some needed
  end.

Definition classesNeeded (fuel : nat) (s : Subject) : option Z :=
  let current := attendancePercentage s in
  if nge current (Fin (minimumAttendance s)) then Some 0
  else
    match classesNeeded_loop fuel (attendedLectures s) (totalLectures s)
            (minimumAttendance s) 0 with
    | Some needed => Some (needed + 1)
    | None => None
    end.

(** [while ((attended / (total + bunks + 1)) * 100 >= minimum) bunks++] *)
Fixpoint safeBunks_loop (fuel : nat) (attended total : Z) (minimum : Q)
    (bunks : Z) : option Z :=
  match fuel with
  | O => None
  | S fuel' =>
      if nge (ratio100 attended (total + bunks + 1)) (Fin minimum)
      then safeBunks_loop fuel' attended total minimum (bunks + 1)
      else Some bunks
  end.

Definition safeBunks (fuel : nat) (s : Subject) : option Z :=
  let current := attendancePercentage s in
  if nlt current (Fin (minimumAttendance s)) then Some 0
  else safeBunks_loop fuel (attendedLectures s) (totalLectures s)
         (minimumAttendance s) 0.

(** ** The document store

    Two collections keyed by [_id]. *)

Inductive Status : Type := present | absent.

Record DailyAttendance : Type := mkAttendance {
  attUser : positive;              (* userId *)
  attSubject : positive;           (* subjectId *)
  attDate : Z;                     (* date, in milliseconds *)
  attStatus : Status;
  attNotes : option string
}.

Record DB : Type := mkDB {
  subjects : gmap positive Subject;
  attendances : gmap positive DailyAttendance
}.

(** [Subject.findOne({ _id: subjectId, userId })] *)
Definition findSubject (db : DB) (subjectId user : positive) : option Subject :=
  match subjects db !! subjectId with
  | Some s => if Pos.eqb (subjectUser s) user then Some s else None
  | None => None
  end.

(** What a handler answers: [res.status(c).json(..)], [next(new AppError(..))]
    or, from the [catch], [next(error)] with an error that a callee threw. *)
Inductive response (A : Type) : Type :=
| Json (statusCode : Z) (data : A)
| AppError (message : string) (statusCode : Z)
| Thrown.
Arguments Json {A} statusCode data.
Arguments AppError {A} message statusCode.
Arguments Thrown {A}.

(** ** The bunk predictor handlers (bunkPredictorController) *)

Record Prediction : Type := mkPrediction {
  canBunk : bool;
  predSafeBunks : Z;
  currentAttendance : number;
  afterBunkAttendance : number;
  minimumRequired : Q;
  attendanceDrop : number;
  classesNeededToRecover : Z;
  currentTotal : Z;
  currentAttended : Z;
  afterBunkTotal : Z;
  afterBunkAttended : Z
}.

(** The loop of [predictBunk]:
    [while (((attended + c + 1) / (total + c + 1)) * 100 < minAttendance) c++] *)
Fixpoint recover_loop (fuel : nat) (attended total : Z) (minAttendance : Q)
    (c : Z) : option Z :=
  match fuel with
  | O => None
  | S fuel' =>
      if nlt (ratio100 (attended + c + 1) (total + c + 1)) (Fin minAttendance)
      then recover_loop fuel' attended total minAttendance (c + 1)
      else Some c
  end.

(** [Number(((afterBunkAttended / afterBunkTotal) * 100).toFixed(2))] *)
Definition afterBunkPercentage (subject : Subject) : number :=
  Number (toFixed (ratio100 (attendedLectures subject) (totalLectures subject + 1))).

(** [classesNeededToRecover]: [0], and when the bunk is not safe the count of
    the loop, incremented once after it. *)
Definition recoverClasses (fuel : nat) (subject : Subject) (can : bool) : option Z :=
  if negb can then
    match recover_loop fuel (attendedLectures subject) (totalLectures subject + 1)
            (minimumAttendance subject) 0 with
    | Some c => Some (c + 1)
    | None => None
    end
  else Some 0.

(** The body of [predictBunk] once the subject is found.  The text of the
    recommendation is not modelled. *)
Definition predict (fuel : nat) (subject : Subject) : option Prediction :=
  let currentPercentage := attendancePercentage subject in
  let minAttendance := minimumAttendance subject in
  let can := nge (afterBunkPercentage subject) (Fin minAttendance) in
  match safeBunks fuel subject with
  | None => None
  | Some bunks =>
      match recoverClasses fuel subject can with
      | None => None
      | Some c =>
          Some {| canBunk := can;
                  predSafeBunks := bunks;
                  currentAttendance := currentPercentage;
                  afterBunkAttendance := afterBunkPercentage subject;
                  minimumRequired := minAttendance;
                  attendanceDrop :=
                    Number (toFixed (nsub currentPercentage
                                       (afterBunkPercentage subject)));
                  classesNeededToRecover := c;
                  currentTotal := totalLectures subject;
                  currentAttended := attendedLectures subject;
                  afterBunkTotal := totalLectures subject + 1;
                  afterBunkAttended := attendedLectures subject |}
      end
  end.

Definition predictBunk (fuel : nat) (db : DB) (user subjectId : positive)
    : option (response Prediction) :=
  match findSubject db subjectId user with
  | None => Some (AppError "Subject not found" 404)
  | Some subject =>
      match predict fuel subject with
      | Some p => Some (Json 200 p)
      | None => None
      end
  end.

Record Step : Type := mkStep {
  bunkNumber : Z;
  stepTotal : Z;                   (* totalLectures *)
  stepAttended : Z;                (* attendedLectures *)
  attendance : number;
  isSafe : bool;
  stepStatus : string              (* status *)
}.

(** The [for] loop of [simulateBunks], [count] iterations from counter [i]. *)
Fixpoint simulate_loop (count : nat) (i attended total : Z) (minimum : Q)
    : list Step :=
  match count with
  | O => []
  | S count' =>
      let total' := total + 1 in
      let percentage := Number (toFixed (ratio100 attended total')) in
      let safe := nge percentage (Fin minimum) in
      {| bunkNumber := i;
         stepTotal := total';
         stepAttended := attended;
         attendance := percentage;
         isSafe := safe;
         stepStatus := if safe then "safe" else "danger" |}
      :: simulate_loop count' (i + 1) attended total' minimum
  end.

(** [Array.prototype.findIndex]: the first index whose element satisfies [p],
    [-1] when there is none. *)
Fixpoint findIndex_from {A : Type} (p : A -> bool) (l : list A) (k : Z) : Z :=
  match l with
  | [] => -1
  | x :: l' => if p x then k else findIndex_from p l' (k + 1)
  end.

Definition findIndex {A : Type} (p : A -> bool) (l : list A) : Z :=
  findIndex_from p l 0.

Record Analysis : Type := mkAnalysis {
  requestedBunks : Z;
  simSafeBunks : Z;                (* analysis.safeBunks *)
  turningPoint : option Z;         (* null is None *)
  finalAttendance : number
}.

Record Simulation : Type := mkSimulation {
  simCurrentAttendance : number;   (* subject.currentAttendance *)
  simulation : list Step;
  analysis : Analysis
}.

(** [simulateBunks] for an integer [numberOfBunks]; [!numberOfBunks] is then
    [numberOfBunks === 0]. *)
Definition simulateBunks (db : DB) (user subjectId : positive)
    (numberOfBunks : Z) : response Simulation :=
  if (numberOfBunks =? 0) || (numberOfBunks <? 1) then
    AppError "Number of bunks must be at least 1" 400
  else if 50 <? numberOfBunks then
    AppError "Cannot simulate more than 50 bunks" 400
  else
    match findSubject db subjectId user with
    | None => AppError "Subject not found" 404
    | Some subject =>
        let sim :=
          simulate_loop (Z.to_nat numberOfBunks) 1 (attendedLectures subject)
            (totalLectures subject) (minimumAttendance subject) in
        let tp := findIndex (fun s => negb (isSafe s)) sim in
        match sim !! (length sim - 1)%nat with
        | None => Thrown   (* simulation[simulation.length - 1] is undefined *)
        | Some final =>
            Json 200
              {| simCurrentAttendance := attendancePercentage subject;
                 simulation := sim;
                 analysis :=
                   {| requestedBunks := numberOfBunks;
                      simSafeBunks := if tp =? -1 then numberOfBunks else tp;
                      turningPoint := if tp =? -1 then None else Some (tp + 1);
                      finalAttendance := attendance final |} |}
        end
    end.

(** ** src/controllers/attendanceController.js *)

(** [maxlength: 200] on [notes], checked when a record is validated. *)
Definition notes_valid (notes : option string) : bool :=
  match notes with
  | None => true
  | Some n => (String.length n <=? 200)%nat
  end.

(** [subject.save()]: the document is validated against the schema and then
    stored; a validation error is thrown otherwise. *)
Definition saveSubject (db : DB) (subjectId : positive) (s : Subject) : option DB :=
  if schema_valid s
  then Some (mkDB (<[subjectId := s]> (subjects db)) (attendances db))
  else None.

Definition matches (user subjectId : positive) (date : Z)
    (entry : positive * DailyAttendance) : bool :=
  Pos.eqb (attUser entry.2) user && Pos.eqb (attSubject entry.2) subjectId
  && (attDate entry.2 =? date).

(** [DailyAttendance.findOne({ userId, subjectId, date })] *)
Definition findAttendance (db : DB) (user subjectId : positive) (date : Z)
    : option (positive * DailyAttendance) :=
  List.find (matches user subjectId date) (map_to_list (attendances db)).

Record Marked : Type := mkMarked {
  markedId : positive;             (* attendance._id *)
  markedAttendance : DailyAttendance;
  markedTotal : Z;
  markedAttended : Z;
  markedAbsent : Z;
  markedPercentage : number
}.

Definition marked (id : positive) (r : DailyAttendance) (s : Subject) : Marked :=
  {| markedId := id;
     markedAttendance := r;
     markedTotal := totalLectures s;
     markedAttended := attendedLectures s;
     markedAbsent := absentLectures s;
     markedPercentage := attendancePercentage s |}.

Definition with_counts (s : Subject) (total attended : Z) : Subject :=
  {| subjectUser := subjectUser s;
     totalLectures := total;
     attendedLectures := attended;
     minimumAttendance := minimumAttendance s |}.

Section AttendanceController.

(** [new Date(date)] followed by [setHours(0, 0, 0, 0)]: the start of the
    day of [date] in the time zone of the server. *)
Variable startOfDay : Z -> Z.

Definition markAttendance (db : DB) (user subjectId : positive) (date : Z)
    (status : Status) (notes : option string) : DB * response Marked :=
  match findSubject db subjectId user with
  | None => (db, AppError "Subject not found" 404)
  | Some subject =>
      let attendanceDate := startOfDay date in
      match findAttendance db user subjectId attendanceDate with
      | Some (id, existing) =>
          let oldStatus := attStatus existing in
          let updated :=
            {| attUser := attUser existing;
               attSubject := attSubject existing;
               attDate := attDate existing;
               attStatus := status;
               attNotes := match notes with
                           | Some n => Some n
                           | None => attNotes existing
                           end |} in
          if notes_valid (attNotes updated) then
            let db1 := mkDB (subjects db) (<[id := updated]> (attendances db)) in
            match oldStatus, status with
            | present, absent =>
                let subject' := with_counts subject (totalLectures subject)
                                  (attendedLectures subject - 1) in
                match saveSubject db1 subjectId subject' with
                | Some db2 => (db2, Json 200 (marked id updated subject'))
                | None => (db1, Thrown)
                end
            | absent, present =>
                let subject' := with_counts subject (totalLectures subject)
                                  (attendedLectures subject + 1) in
                match saveSubject db1 subjectId subject' with
                | Some db2 => (db2, Json 200 (marked id updated subject'))
                | None => (db1, Thrown)
                end
            | _, _ => (db1, Json 200 (marked id updated subject))
            end
          else (db, Thrown)
      | None =>
          if notes_valid notes then
            let id := fresh (dom (attendances db)) in
            let created := mkAttendance user subjectId attendanceDate status notes in
            let db1 := mkDB (subjects db) (<[id := created]> (attendances db)) in
            let total := totalLectures subject + 1 in
            let attended :=
              match status with
              | present => attendedLectures subject + 1
              | absent => attendedLectures subject
              end in
            let subject' := with_counts subject total attended in
            match saveSubject db1 subjectId subject' with
            | Some db2 => (db2, Json 201 (marked id created subject'))
            | None => (db1, Thrown)
            end
          else (db, Thrown)
      end
  end.

End AttendanceController.

Definition deleteAttendance (db : DB) (user id : positive) : DB * response unit :=
  match attendances db !! id with
  | None => (db, AppError "Attendance record not found" 404)
  | Some att =>
      if Pos.eqb (attUser att) user then
        let remove (d : DB) : DB * response unit :=
          (mkDB (subjects d) (delete id (attendances d)), Json 200 tt) in
        match subjects db !! attSubject att with   (* Subject.findById *)
        | Some subject =>
            let total := totalLectures subject - 1 in
            let attended :=
              match attStatus att with
              | present => attendedLectures subject - 1
              | absent => attendedLectures subject
              end in
            match saveSubject db (attSubject att) (with_counts subject total attended) with
            | Some db1 => remove db1
            | None => (db, Thrown)
            end
        | None => remove db
        end
      else (db, AppError "Attendance record not found" 404)
  end.

Record Updated : Type := mkUpdated {
  updatedId : positive;            (* attendance._id *)
  updatedAttendance : DailyAttendance;
  updatedTotal : Z;
  updatedAttended : Z;
  updatedPercentage : number
}.

Definition updated_response (id : positive) (r : DailyAttendance) (s : Subject)
    : Updated :=
  {| updatedId := id;
     updatedAttendance := r;
     updatedTotal := totalLectures s;
     updatedAttended := attendedLectures s;
     updatedPercentage := attendancePercentage s |}.

(** [updateAttendance]: [status] and [notes] are the fields of the body,
    [None] when the body does not have them.  A status is one of the two
    values of the schema's enumeration. *)
Definition updateAttendance (db : DB) (user id : positive)
    (status : option Status) (notes : option string) : DB * response Updated :=
  match attendances db !! id with
  | None => (db, AppError "Attendance record not found" 404)
  | Some attendance =>
      if Pos.eqb (attUser attendance) user then
        let oldStatus := attStatus attendance in
        match subjects db !! attSubject attendance with   (* Subject.findById *)
        | None => (db, AppError "Subject not found" 404)
        | Some subject =>
            let updated :=
              {| attUser := attUser attendance;
                 attSubject := attSubject attendance;
                 attDate := attDate attendance;
                 attStatus := match status with
                              | Some st => st
                              | None => oldStatus
                              end;
                 attNotes := match notes with
                             | Some n => Some n
                             | None => attNotes attendance
                             end |} in
            if notes_valid (attNotes updated) then
              let db1 := mkDB (subjects db) (<[id := updated]> (attendances db)) in
              match oldStatus, status with
              | present, Some absent =>
                  let subject' := with_counts subject (totalLectures subject)
                                    (attendedLectures subject - 1) in
                  match saveSubject db1 (attSubject attendance) subject' with
                  | Some db2 => (db2, Json 200 (updated_response id updated subject'))
                  | None => (db1, Thrown)
                  end
              | absent, Some present =>
                  let subject' := with_counts subject (totalLectures subject)
                                    (attendedLectures subject + 1) in
                  match saveSubject db1 (attSubject attendance) subject' with
                  | Some db2 => (db2, Json 200 (updated_response id updated subject'))
                  | None => (db1, Thrown)
                  end
              | _, _ => (db1, Json 200 (updated_response id updated subject))
              end
            else (db, Thrown)
        end
      else (db, AppError "Attendance record not found" 404)
  end.

(** ** The counters and the records

    What the counters of a subject are meant to hold: the number of its
    attendance records, and the number of those with status [present]. *)

#[global] Instance Status_eq_dec : EqDecision Status.
Proof. solve_decision. Defined.

Definition count_records (Q : DailyAttendance -> Prop)
    `{!forall r, Decision (Q r)} (records : gmap positive DailyAttendance) : Z :=
  Z.of_nat
    (size (base.filter (fun entry : positive * DailyAttendance => Q entry.2) records)).

(** What one record, if there is one, adds to such a count. *)
Definition counts (Q : DailyAttendance -> Prop) `{!forall r, Decision (Q r)}
    (o : option DailyAttendance) : Z :=
  match o with
  | Some r => if decide (Q r) then 1 else 0
  | None => 0
  end.

Definition lecturesHeld (records : gmap positive DailyAttendance)
    (subjectId : positive) : Z :=
  count_records (fun r => attSubject r = subjectId) records.

Definition lecturesAttended (records : gmap positive DailyAttendance)
    (subjectId : positive) : Z :=
  count_records (fun r => attSubject r = subjectId /\ attStatus r = present) records.

(** A subject agrees with the records: its minimum is in range and its
    counters are the two counts. *)
Definition subject_ok (records : gmap positive DailyAttendance)
    (subjectId : positive) (s : Subject) : Prop :=
  Qle_bool 0 (minimumAttendance s) = true
  /\ Qle_bool (minimumAttendance s) 100 = true
  /\ totalLectures s = lecturesHeld records subjectId
  /\ attendedLectures s = lecturesAttended records subjectId.

(** A record passes its schema, and the subject it counts for, if stored,
    belongs to the user of the record. *)
Definition record_ok (subs : gmap positive Subject) (r : DailyAttendance) : Prop :=
  notes_valid (attNotes r) = true
  /\ match subs !! attSubject r with
     | Some s => subjectUser s = attUser r
     | None => True
     end.

(** The records after one change at [id]: a record stored there, or the
    record removed. *)
Definition change_record (records : gmap positive DailyAttendance)
    (id : positive) (change : option DailyAttendance)
    : gmap positive DailyAttendance :=
  match change with
  | Some r => <[id := r]> records
  | None => delete id records
  end.

Definition consistent (db : DB) : Prop :=
  map_Forall (subject_ok (attendances db)) (subjects db)
  /\ map_Forall (fun _ r => record_ok (subjects db) r) (attendances db).

#[global] Instance subject_ok_dec (records : gmap positive DailyAttendance)
    (subjectId : positive) (s : Subject) : Decision (subject_ok records subjectId s).
Proof. unfold subject_ok. apply _. Defined.

#[global] Instance record_ok_dec (subs : gmap positive Subject)
    (r : DailyAttendance) : Decision (record_ok subs r).
Proof. unfold record_ok. destruct (subs !! attSubject r); apply _. Defined.

#[global] Instance consistent_dec (db : DB) : Decision (consistent db).
Proof. unfold consistent. apply _. Defined.

(** What a request of [user] leaves alone: every subject and every record
    of another user. *)
Definition untouched (user : positive) (db db' : DB) : Prop :=
  (forall (subjectId : positive) (s : Subject),
      subjects db !! subjectId = Some s -> subjectUser s <> user ->
      subjects db' !! subjectId = Some s)
  /\ (forall (id : positive) (r : DailyAttendance),
        attendances db !! id = Some r -> attUser r <> user ->
        attendances db' !! id = Some r).

(** ** The summaries: [getSubjects], [getAttendanceStats], [getSubjectStats]
    and [bulkPredictBunk]

    Each of these handlers starts with a query for the active subjects of the
    user (or for one subject); the documents the query returns are the
    argument here.  Identifiers and names are copied into the answers by the
    handlers and are left out. *)

Record Overall : Type := mkOverall {
  overallTotal : Z;                (* totalLectures *)
  overallAttended : Z;             (* totalAttended *)
  overallAttendance : number
}.

(** [totalAttended / totalLectures * 100] to two decimals, [0] unless
    [totalLectures > 0] *)
Definition overall_percentage (totalAttended total : Z) : number :=
  if 0 <? total then Number (toFixed (ratio100 totalAttended total)) else of_Z 0.

(** [getSubjects]: the two sums of [subjects.forEach] and their percentage *)
Definition getSubjects (subs : list Subject) : Overall :=
  let total := fold_left (fun acc s => acc + totalLectures s) subs 0 in
  let attended := fold_left (fun acc s => acc + attendedLectures s) subs 0 in
  {| overallTotal := total;
     overallAttended := attended;
     overallAttendance := overall_percentage attended total |}.

Record SubjectStat : Type := mkSubjectStat {
  statAttendance : number;
  statSafeBunks : Z;
  statClassesNeeded : Z
}.

Record Tally : Type := mkTally {
  tallyTotal : Z;                  (* totalLectures *)
  tallyAttended : Z;               (* totalAttended *)
  tallyAbove : Z;                  (* subjectsAboveMin *)
  tallyBelow : Z                   (* subjectsBelowMin *)
}.

(** The callback of [subjects.map] in [getAttendanceStats]: it moves the four
    running counters and returns the entry of the subject. *)
Definition stat_step (fuel : nat) (t : Tally) (s : Subject)
    : option (Tally * SubjectStat) :=
  let above := nge (attendancePercentage s) (Fin (minimumAttendance s)) in
  let t' :=
    {| tallyTotal := tallyTotal t + totalLectures s;
       tallyAttended := tallyAttended t + attendedLectures s;
       tallyAbove := if above then tallyAbove t + 1 else tallyAbove t;
       tallyBelow := if above then tallyBelow t else tallyBelow t + 1 |} in
  match safeBunks fuel s with
  | None => None
  | Some bunks =>
      match classesNeeded fuel s with
      | None => None
      | Some needed =>
          Some (t', {| statAttendance := attendancePercentage s;
                       statSafeBunks := bunks;
                       statClassesNeeded := needed |})
      end
  end.

Fixpoint stat_map (fuel : nat) (t : Tally) (subs : list Subject)
    : option (Tally * list SubjectStat) :=
  match subs with
  | [] => Some (t, [])
  | s :: subs' =>
      match stat_step fuel t s with
      | None => None
      | Some (t', entry) =>
          match stat_map fuel t' subs' with
          | None => None
          | Some (t'', entries) => Some (t'', entry :: entries)
          end
      end
  end.

Record Stats : Type := mkStats {
  statsOverall : Overall;
  subjectsAboveMin : Z;
  subjectsBelowMin : Z;
  totalSubjects : Z;
  recentPresent : Z;
  recentAbsent : Z;
  recentTotal : Z;
  subjectStats : list SubjectStat
}.

Definition has_status (st : Status) (r : DailyAttendance) : bool :=
  match attStatus r, st with
  | present, present | absent, absent => true
  | _, _ => false
  end.

(** [getAttendanceStats]; [recentRecords] are the records of the last seven
    days that the second query returns. *)
Definition getAttendanceStats (fuel : nat) (subs : list Subject)
    (recentRecords : list DailyAttendance) : option Stats :=
  match stat_map fuel (mkTally 0 0 0 0) subs with
  | None => None
  | Some (t, entries) =>
      Some {| statsOverall :=
                {| overallTotal := tallyTotal t;
                   overallAttended := tallyAttended t;
                   overallAttendance :=
                     overall_percentage (tallyAttended t) (tallyTotal t) |};
              subjectsAboveMin := tallyAbove t;
              subjectsBelowMin := tallyBelow t;
              totalSubjects := Z.of_nat (length subs);
              recentPresent :=
                Z.of_nat (length (List.filter (has_status present) recentRecords));
              recentAbsent :=
                Z.of_nat (length (List.filter (has_status absent) recentRecords));
              recentTotal := Z.of_nat (length recentRecords);
              subjectStats := entries |}
  end.

Record SubjectStats : Type := mkSubjectStats {
  ssCurrentAttendance : number;
  ssSafeBunks : Z;
  ssClassesNeeded : Z;
  ssTotalLectures : Z;
  ssAttendedLectures : Z;
  ssMissedLectures : Z;
  ssMinimumAttendance : Q;
  ssIsAboveMinimum : bool
}.

(** [getSubjectStats] *)
Definition getSubjectStats (fuel : nat) (db : DB) (user id : positive)
    : option (response SubjectStats) :=
  match findSubject db id user with
  | None => Some (AppError "Subject not found" 404)
  | Some subject =>
      match safeBunks fuel subject with
      | None => None
      | Some bunks =>
          match classesNeeded fuel subject with
          | None => None
          | Some needed =>
              Some (Json 200
                      {| ssCurrentAttendance := attendancePercentage subject;
                         ssSafeBunks := bunks;
                         ssClassesNeeded := needed;
                         ssTotalLectures := totalLectures subject;
                         ssAttendedLectures := attendedLectures subject;
                         ssMissedLectures :=
                           totalLectures subject - attendedLectures subject;
                         ssMinimumAttendance := minimumAttendance subject;
                         ssIsAboveMinimum :=
                           nge (attendancePercentage subject)
                               (Fin (minimumAttendance subject)) |})
          end
      end
  end.

Record BulkEntry : Type := mkBulkEntry {
  bulkCurrentAttendance : number;
  bulkCanBunk : bool;
  bulkSafeBunks : Z;
  bulkAfterBunkAttendance : number
}.

(** The callback of [subjects.map] in [bulkPredictBunk] *)
Definition bulk_entry (fuel : nat) (subject : Subject) : option BulkEntry :=
  let currentPercentage := attendancePercentage subject in
  let minAttendance := minimumAttendance subject in
  let afterAttended := attendedLectures subject in
  let afterTotal := totalLectures subject + 1 in
  let afterPercentage := Number (toFixed (ratio100 afterAttended afterTotal)) in
  let can := nge afterPercentage (Fin minAttendance) in
  match safeBunks fuel subject with
  | None => None
  | Some bunks =>
      Some {| bulkCurrentAttendance := currentPercentage;
              bulkCanBunk := can;
              bulkSafeBunks := bunks;
              bulkAfterBunkAttendance := afterPercentage |}
  end.

Fixpoint bulk_map (fuel : nat) (subs : list Subject) : option (list BulkEntry) :=
  match subs with
  | [] => Some []
  | s :: subs' =>
      match bulk_entry fuel s with
      | None => None
      | Some e =>
          match bulk_map fuel subs' with
          | None => None
          | Some es => Some (e :: es)
          end
      end
  end.

Record BulkPrediction : Type := mkBulkPrediction {
  bulkTotalSubjects : Z;
  safeSubjects : Z;
  riskySubjects : Z;
  totalSafeBunks : Z;
  predictions : list BulkEntry
}.

(** [bulkPredictBunk] *)
Definition bulkPredictBunk (fuel : nat) (subs : list Subject)
    : option BulkPrediction :=
  match bulk_map fuel subs with
  | None => None
  | Some es =>
      Some {| bulkTotalSubjects := Z.of_nat (length subs);
              safeSubjects := Z.of_nat (length (List.filter bulkCanBunk es));
              riskySubjects :=
                Z.of_nat (length (List.filter (fun e => negb (bulkCanBunk e)) es));
              totalSafeBunks := fold_left (fun sum e => sum + bulkSafeBunks e) es 0;
              predictions := es |}
  end.

(** ** The timetable: [src/models/Timetable.js] and the timetable handlers
    (the third module of [src/controllers/profileController.js])

    A timetable entry keeps its user, its subject, its day and its two times;
    [room] and [lectureType] take no part in what the handlers decide and are
    left out.  The times are the strings the client sent.  A day is one of
    the seven values of the schema's enumeration: a document with another
    day is refused by the validation and changes nothing. *)

Inductive Day : Type :=
| Monday | Tuesday | Wednesday | Thursday | Friday | Saturday | Sunday.

#[global] Instance Day_eq_dec : EqDecision Day.
Proof. solve_decision. Defined.

Record Timetable : Type := mkTimetable {
  ttUser : positive;               (* userId *)
  ttSubject : positive;            (* subjectId *)
  ttDay : Day;                     (* dayOfWeek *)
  ttStart : string;                (* startTime *)
  ttEnd : string;                  (* endTime *)
  ttActive : bool                  (* isActive *)
}.

Definition char_between (lo hi c : Ascii.ascii) : bool :=
  (Ascii.N_of_ascii lo <=? Ascii.N_of_ascii c)%N
  && (Ascii.N_of_ascii c <=? Ascii.N_of_ascii hi)%N.
Arguments char_between (lo hi c)%_char_scope.

(** The [match] validator of [startTime] and [endTime]:
    [/^([0-1]?[0-9]|2[0-3]):[0-5][0-9]$/] *)
Definition time_format (s : string) : bool :=
  match s with
  | String h (String c (String m1 (String m2 EmptyString))) =>
      char_between "0" "9" h && Ascii.eqb c ":"
      && char_between "0" "5" m1 && char_between "0" "9" m2
  | String h1 (String h2 (String c (String m1 (String m2 EmptyString)))) =>
      (char_between "0" "1" h1 && char_between "0" "9" h2
       || Ascii.eqb h1 "2" && char_between "0" "3" h2)
      && Ascii.eqb c ":"
      && char_between "0" "5" m1 && char_between "0" "9" m2
  | _ => false
  end.

(** The pre-save hook reads a time with [split(':').map(Number)]: the text
    before the colon and the text after it, which for a string of the time
    format are runs of digits, read in base ten. *)
Fixpoint before_colon (s : string) : string :=
  match s with
  | EmptyString => EmptyString
  | String c rest =>
      if Ascii.eqb c ":" then EmptyString else String c (before_colon rest)
  end.

Fixpoint after_colon (s : string) : string :=
  match s with
  | EmptyString => EmptyString
  | String c rest => if Ascii.eqb c ":" then rest else after_colon rest
  end.

Fixpoint digits (acc : Z) (s : string) : Z :=
  match s with
  | EmptyString => acc
  | String c rest => digits (acc * 10 + (Z.of_N (Ascii.N_of_ascii c) - 48)) rest
  end.

(** [startMinutes] and [endMinutes] of the hook: [start[0] * 60 + start[1]] *)
Definition minutes (time : string) : Z :=
  digits 0 (before_colon time) * 60 + digits 0 (after_colon time).

(** [req.body.field || entry.field] for a string: the empty string is falsy *)
Definition or_current (sent : option string) (current : string) : string :=
  match sent with
  | Some s => if String.eqb s EmptyString then current else s
  | None => current
  end.

Definition truthy (sent : option string) : bool :=
  match sent with
  | Some s => negb (String.eqb s EmptyString)
  | None => false
  end.

(** [if (req.body[field] !== undefined) entry[field] = req.body[field]] *)
Definition assigned {A : Type} (sent : option A) (current : A) : A :=
  match sent with
  | Some v => v
  | None => current
  end.

Section TimetableController.

(** [$lt] of the database on two strings; [$gt] is its converse. *)
Variable lt : string -> string -> bool.

(** What else decides whether Mongoose stores a document: the validators of
    the fields left out and the pre-save hook. *)
Variable accepted : Timetable -> bool.

(** [Timetable.create] and [entry.save()] validate the document. *)
Definition stored (entry : Timetable) : bool :=
  time_format (ttStart entry) && time_format (ttEnd entry) && accepted entry.

(** The filter of the conflict query:
    [{ userId, dayOfWeek, isActive: true,
       $or: [{ startTime: { $lt: endTime }, endTime: { $gt: startTime } }] }] *)
Definition conflict (user : positive) (day : Day) (startTime endTime : string)
    (e : Timetable) : bool :=
  Pos.eqb (ttUser e) user && bool_decide (ttDay e = day) && ttActive e
  && lt (ttStart e) endTime && lt startTime (ttEnd e).

(** [Timetable.find] with that filter; [except] is [_id: { $ne: entry._id }]. *)
Definition conflicts (timetable : gmap positive Timetable) (user : positive)
    (day : Day) (startTime endTime : string) (except : option positive)
    : list (positive * Timetable) :=
  List.filter
    (fun entry =>
       conflict user day startTime endTime entry.2
       && match except with
          | Some id => negb (Pos.eqb entry.1 id)
          | None => true
          end)
    (map_to_list timetable).

Definition createTimetableEntry (db : DB) (timetable : gmap positive Timetable)
    (user subjectId : positive) (day : Day) (startTime endTime : string)
    : gmap positive Timetable * response (positive * Timetable) :=
  match findSubject db subjectId user with
  | None => (timetable, AppError "Subject not found" 404)
  | Some _ =>
      match conflicts timetable user day startTime endTime None with
      | _ :: _ =>
          (timetable, AppError "Time slot conflicts with existing entry" 400)
      | [] =>
          let entry := mkTimetable user subjectId day startTime endTime true in
          if stored entry then
            let id := fresh (dom timetable) in
            (<[id := entry]> timetable, Json 201 (id, entry))
          else (timetable, Thrown)
      end
  end.

Definition updateTimetableEntry (db : DB) (timetable : gmap positive Timetable)
    (user id : positive) (subjectId : option positive) (day : option Day)
    (startTime endTime : option string)
    : gmap positive Timetable * response (positive * Timetable) :=
  match timetable !! id with
  | None => (timetable, AppError "Timetable entry not found" 404)
  | Some entry =>
      if Pos.eqb (ttUser entry) user then
        let unknown_subject :=
          match subjectId with
          | Some s =>
              match findSubject db s user with
              | Some _ => false
              | None => true
              end
          | None => false
          end in
        if unknown_subject then (timetable, AppError "Subject not found" 404)
        else
          let clash :=
            if truthy startTime || truthy endTime
               || match day with Some _ => true | None => false end
            then
              match conflicts timetable user (assigned day (ttDay entry))
                      (or_current startTime (ttStart entry))
                      (or_current endTime (ttEnd entry)) (Some id) with
              | _ :: _ => true
              | [] => false
              end
            else false in
          if clash then
            (timetable, AppError "Time slot conflicts with existing entry" 400)
          else
            let entry' :=
              {| ttUser := ttUser entry;
                 ttSubject := assigned subjectId (ttSubject entry);
                 ttDay := assigned day (ttDay entry);
                 ttStart := assigned startTime (ttStart entry);
                 ttEnd := assigned endTime (ttEnd entry);
                 ttActive := ttActive entry |} in
            if stored entry' then
              (<[id := entry']> timetable, Json 200 (id, entry'))
            else (timetable, Thrown)
      else (timetable, AppError "Timetable entry not found" 404)
  end.

(** The soft delete: the entry stays, with [isActive] false. *)
Definition deleteTimetableEntry (timetable : gmap positive Timetable)
    (user id : positive) : gmap positive Timetable * response unit :=
  match timetable !! id with
  | None => (timetable, AppError "Timetable entry not found" 404)
  | Some entry =>
      if Pos.eqb (ttUser entry) user then
        let entry' :=
          {| ttUser := ttUser entry;
             ttSubject := ttSubject entry;
             ttDay := ttDay entry;
             ttStart := ttStart entry;
             ttEnd := ttEnd entry;
             ttActive := false |} in
        if stored entry' then (<[id := entry']> timetable, Json 200 tt)
        else (timetable, Thrown)
      else (timetable, AppError "Timetable entry not found" 404)
  end.

(** Two entries overlap, as the conflict query compares their times. *)
Definition overlap (e1 e2 : Timetable) : bool :=
  lt (ttStart e1) (ttEnd e2) && lt (ttStart e2) (ttEnd e1).

(** No two active entries of one user on one day overlap. *)
Definition clash_free (timetable : gmap positive Timetable) : Prop :=
  map_Forall (fun i e1 =>
    map_Forall (fun j e2 =>
      i <> j -> ttUser e1 = ttUser e2 -> ttDay e1 = ttDay e2 ->
      ttActive e1 = true -> ttActive e2 = true -> overlap e1 e2 = false)
      timetable) timetable.

#[global] Instance clash_free_dec (timetable : gmap positive Timetable)
  : Decision (clash_free timetable).
Proof. unfold clash_free. apply _. Defined.

End TimetableController.

(** A time written with a two-digit hour. *)
Definition padded (time : string) : bool :=
  time_format time && (String.length time =? 5)%nat.

(** [getTimetable] groups the entries it found by their day:
    [reduce((acc, entry) => { if (!acc[entry.day]) acc[entry.day] = [];
                              acc[entry.day].push(entry); return acc; }, {})].
    The object is a list of days with their entries, in the order in which
    the days were added. *)
Fixpoint push {A : Type} (day : Day) (entry : A) (acc : list (Day * list A))
    : list (Day * list A) :=
  match acc with
  | [] => [(day, [entry])]
  | (d, entries) :: rest =>
      if decide (d = day) then (d, entries ++ [entry]) :: rest
      else (d, entries) :: push day entry rest
  end.

Definition groupByDay {A : Type} (day : A -> Day) (timetable : list A)
    : list (Day * list A) :=
  fold_left (fun acc entry => push (day entry) entry acc) timetable [].

(** [groupedByDay[day]] *)
Fixpoint group {A : Type} (day : Day) (acc : list (Day * list A))
    : option (list A) :=
  match acc with
  | [] => None
  | (d, entries) :: rest => if decide (d = day) then Some entries else group day rest
  end.

(** A timetable with one entry: subject 1 of user 1 on Monday from 09:00 to
    10:00. *)
Definition timetable1 : gmap positive Timetable :=
  {[ 1%positive := mkTimetable 1 1 Monday "09:00" "10:00" true ]}.

(** ** The closed form of the specification

    The specification's derivation of [safeBunks], in its words: the largest
    integer [b] with [b <= attended * 100 / minimum - total - 1], clamped to
    [>= 0]; [minimum == 0] means that every number of bunks is safe, and
    [total == 0] gives [0]. *)



(** The record the specification describes for step [i]: the counters after
    [i] bunks, their rounded percentage and its comparison with the minimum. *)
Definition step_record (s : Subject) (i : Z) : Step :=
  let after := with_counts s (totalLectures s + i) (attendedLectures s) in
  {| bunkNumber := i;
     stepTotal := totalLectures s + i;
     stepAttended := attendedLectures s;
     attendance := attendancePercentage after;
     isSafe := nge (attendancePercentage after) (Fin (minimumAttendance s));
     stepStatus :=
       if nge (attendancePercentage after) (Fin (minimumAttendance s))
       then "safe" else "danger" |}.

(** A subject of user 1 with the given counters and minimum. *)
Definition subj (attended total : Z) (minimum : Q) : Subject :=
  mkSubject 1%positive total attended minimum.

(** A store that holds [s] as subject 1 and no attendance record. *)
Definition db1 (s : Subject) : DB := mkDB {[ 1%positive := s ]} ∅.

(** A store with subject 1 of user 1, one lecture held and attended, and the
    record of that lecture as record 1. *)
Definition db2 : DB :=
  mkDB {[ 1%positive := subj 1 1 75 ]}
       {[ 1%positive := mkAttendance 1 1 0 present None ]}.

(** ** The calculator in binary64

    The same getters and tests with the arithmetic JavaScript performs:
    IEEE 754 binary64 with rounding to nearest even, as [SpecFloat] defines
    it.  The counters stay integers; they are exact in binary64 below
    [2^53].  This copy is evaluated at the concrete inputs used below, to
    check that the values found in exact arithmetic are those of binary64. *)

Module Binary64.

Definition prec : Z := 53.
Definition emax : Z := 1024.

Definition of_Z (z : Z) : spec_float := binary_normalize prec emax z 0 false.

Definition ratio100 (attended total : Z) : spec_float :=
  SFmul prec emax (SFdiv prec emax (of_Z attended) (of_Z total)) (of_Z 100).

Definition nlt (x y : spec_float) : bool := SFltb x y.
Definition nge (x y : spec_float) : bool := SFleb y x.

(** [floor (m * 2^e * 100 + 1/2)], computed on integers *)
Definition nearest_hundredth (m : positive) (e : Z) : Z :=
  if 0 <=? e then 100 * Z.pos m * 2 ^ e
  else (200 * Z.pos m + 2 ^ (- e)) / (2 * 2 ^ (- e)).

(** [10^21 <= m * 2^e] *)
Definition huge (m : positive) (e : Z) : bool :=
  if 0 <=? e then 10 ^ 21 <=? Z.pos m * 2 ^ e
  else 10 ^ 21 * 2 ^ (- e) <=? Z.pos m.

Inductive numeral : Type :=
| Hundredths (n : Z)
| Literal (x : spec_float).

Definition toFixed (x : spec_float) : numeral :=
  match x with
  | S754_zero _ => Hundredths 0
  | S754_finite sign m e =>
      if huge m e then Literal x
      else if sign then Hundredths (- nearest_hundredth m e)
      else Hundredths (nearest_hundredth m e)
  | _ => Literal x
  end.

(** The binary64 nearest to [n / 100], which is also the quotient of the two
    integers in binary64. *)
Definition Number (s : numeral) : spec_float :=
  match s with
  | Hundredths n => SFdiv prec emax (of_Z n) (of_Z 100)
  | Literal x => x
  end.

Definition attendancePercentage (attended total : Z) : spec_float :=
  if total =? 0 then of_Z 0
  else Number (toFixed (ratio100 attended total)).

Fixpoint classesNeeded_loop (fuel : nat) (attended total : Z)
    (minimum : spec_float) (needed : Z) : option Z :=
  match fuel with
  | O => None
  | S fuel' =>
      if nlt (ratio100 (attended + needed + 1) (total + needed + 1)) minimum
      then classesNeeded_loop fuel' attended total minimum (needed + 1)
      else Some needed
  end.

Definition classesNeeded (fuel : nat) (attended total : Z)
    (minimum : spec_float) : option Z :=
  if nge (attendancePercentage attended total) minimum then Some 0
  else
    match classesNeeded_loop fuel attended total minimum 0 with
    | Some needed => Some (needed + 1)
    | None => None
    end.

Fixpoint safeBunks_loop (fuel : nat) (attended total : Z)
    (minimum : spec_float) (bunks : Z) : option Z :=
  match fuel with
  | O => None
  | S fuel' =>
      if nge (ratio100 attended (total + bunks + 1)) minimum
      then safeBunks_loop fuel' attended total minimum (bunks + 1)
      else Some bunks
  end.

Definition safeBunks (fuel : nat) (attended total : Z)
    (minimum : spec_float) : option Z :=
  if nlt (attendancePercentage attended total) minimum then Some 0
  else safeBunks_loop fuel attended total minimum 0.

(** [canBunk] of [predictBunk] *)
Definition canBunk (attended total : Z) (minimum : spec_float) : bool :=
  nge (Number (toFixed (ratio100 attended (total + 1)))) minimum.

End Binary64.

(** * Properties *)

(** ** Comparisons and quotients of the number model *)

Lemma Qltb_lt (p q : Q) : Qltb p q = true <-> (p < q)%Q.
Proof.
  unfold Qltb. rewrite Qlt_alt. destruct (p ?= q)%Q; split; congruence.
Qed.

Lemma Qltb_ge (p q : Q) : Qltb p q = false <-> (q <= p)%Q.
Proof.
  rewrite <- not_true_iff_false, Qltb_lt. split.
  - apply Qnot_lt_le.
  - apply Qle_not_lt.
Qed.

Lemma Qeqb_eq (p q : Q) : Qeqb p q = true <-> (p == q)%Q.
Proof.
  unfold Qeqb. rewrite Qeq_alt. destruct (p ?= q)%Q; split; congruence.
Qed.

Lemma Qeqb_inject_Z_0 (d : Z) : d <> 0 -> Qeqb (inject_Z d) 0 = false.
Proof.
  intros Hd. apply not_true_iff_false. rewrite Qeqb_eq.
  unfold Qeq; simpl. lia.
Qed.

Lemma ratio100_Fin (a d : Z) :
  d <> 0 -> ratio100 a d = Fin (inject_Z a / inject_Z d * inject_Z 100).
Proof.
  intros Hd. unfold ratio100, of_Z, ndiv, nmul.
  now rewrite (Qeqb_inject_Z_0 d Hd).
Qed.

Lemma ratio_frac (a d : Z) :
  0 < d -> (inject_Z a / inject_Z d * inject_Z 100 == (100 * a) # Z.to_pos d)%Q.
Proof.
  intros Hd. rewrite (Qmake_Qdiv (100 * a) (Z.to_pos d)).
  rewrite Z2Pos.id by exact Hd. rewrite inject_Z_mult.
  field. unfold Qeq; simpl. lia.
Qed.

Lemma Qlt_frac (n d : Z) (m : Q) :
  0 < d -> ((n # Z.to_pos d) < m)%Q <-> n * QDen m < Qnum m * d.
Proof.
  intros Hd. unfold Qlt; simpl. now rewrite Z2Pos.id by exact Hd.
Qed.

Lemma nlt_ratio (a d : Z) (m : Q) :
  0 < d ->
  nlt (ratio100 a d) (Fin m) = (100 * a * QDen m <? Qnum m * d).
Proof.
  intros Hd. rewrite ratio100_Fin by lia. simpl.
  apply eq_true_iff_eq. rewrite Qltb_lt, Z.ltb_lt, (ratio_frac a d Hd).
  now apply Qlt_frac.
Qed.

Lemma nge_Fin (p q : Q) : nge (Fin p) (Fin q) = negb (Qltb p q).
Proof. reflexivity. Qed.

Lemma nge_ratio (a d : Z) (m : Q) :
  0 < d ->
  nge (ratio100 a d) (Fin m) = (Qnum m * d <=? 100 * a * QDen m).
Proof.
  intros Hd. pose proof (nlt_ratio a d m Hd) as H.
  rewrite ratio100_Fin in * by lia. rewrite nge_Fin. simpl in H. rewrite H.
  rewrite Z.ltb_antisym. now rewrite negb_involutive.
Qed.

(** The rounded percentage of non-negative counters, as a count of hundredths. *)
Lemma nearest_hundredth_ratio (a d : Z) :
  0 < d ->
  nearest_hundredth (inject_Z a / inject_Z d * inject_Z 100)
  = (20000 * a + d) / (2 * d).
Proof.
  intros Hd. unfold nearest_hundredth.
  assert (E : (inject_Z a / inject_Z d * inject_Z 100 * 100 + (1 # 2)
               == (20000 * a + d) # Z.to_pos (2 * d))%Q).
  { rewrite (Qmake_Qdiv (20000 * a + d) (Z.to_pos (2 * d))).
    rewrite Z2Pos.id by lia.
    rewrite inject_Z_plus, !inject_Z_mult.
    field. unfold Qeq; simpl. lia. }
  rewrite (Qfloor_comp _ _ E). simpl. now rewrite Z2Pos.id by lia.
Qed.

Lemma rounded_ratio (a d : Z) :
  0 <= a -> 0 < d -> a <= 10 ^ 18 * d ->
  Number (toFixed (ratio100 a d)) = Fin (((20000 * a + d) / (2 * d)) # 100).
Proof.
  intros Ha Hd Hb. rewrite ratio100_Fin by lia. unfold toFixed.
  set (x := (inject_Z a / inject_Z d * inject_Z 100)%Q).
  assert (Hx : (x == (100 * a) # Z.to_pos d)%Q) by now apply ratio_frac.
  assert (H0 : (0 <= x)%Q).
  { rewrite Hx. unfold Qle; simpl. lia. }
  assert (Hbig : Qle_bool (inject_Z (10 ^ 21)) (Qabs x) = false).
  { apply not_true_iff_false. rewrite Qle_bool_iff.
    rewrite (Qabs_pos x H0), Hx. unfold Qle; simpl.
    rewrite Z2Pos.id by lia. lia. }
  rewrite Hbig.
  assert (Hneg : Qltb x 0 = false) by now apply Qltb_ge.
  rewrite Hneg. simpl. unfold x. now rewrite nearest_hundredth_ratio.
Qed.

Lemma nlt_hundredths (n : Z) (m : Q) :
  nlt (Fin (n # 100)) (Fin m) = (n * QDen m <? Qnum m * 100).
Proof.
  simpl. apply eq_true_iff_eq. rewrite Qltb_lt, Z.ltb_lt.
  unfold Qlt; simpl. reflexivity.
Qed.

Lemma nge_hundredths (n : Z) (m : Q) :
  nge (Fin (n # 100)) (Fin m) = (Qnum m * 100 <=? n * QDen m).
Proof.
  rewrite nge_Fin. pose proof (nlt_hundredths n m) as H. simpl in H.
  rewrite H, Z.ltb_antisym. now rewrite negb_involutive.
Qed.

(** ** [attendancePercentage] *)




Lemma percentage_hundredths (s : Subject) :
  0 <= attendedLectures s <= totalLectures s -> 0 < totalLectures s ->
  attendancePercentage s
  = Fin (((20000 * attendedLectures s + totalLectures s) / (2 * totalLectures s)) # 100).
Proof.
  intros Ha Ht. unfold attendancePercentage.
  destruct (Z.eqb_spec (totalLectures s) 0) as [E|_]; [lia|].
  apply rounded_ratio; lia.
Qed.


(** ** [safeBunks] *)

Section SafeBunksLoop.

Variables attended total minimum : Z.
Hypothesis Hmin : 0 < minimum.



End SafeBunksLoop.



(** With [minimum == 0] the test of the [safeBunks] loop holds at every
    count, so the loop never exits. *)
Lemma safeBunks_loop_min0_never_exits (fuel : nat) :
  forall attended total b : Z,
    0 <= attended -> 0 <= total -> 0 <= b ->
    safeBunks_loop fuel attended total 0 b = None.
Proof.
  induction fuel as [|fuel IH]; intros attended total b Ha Ht Hb; [reflexivity|].
  simpl. rewrite nge_ratio by lia. simpl.
  destruct (Z.leb_spec (0 * (total + b + 1)) (100 * attended * 1)) as [_|H]; [|lia].
  apply IH; lia.
Qed.

Lemma safeBunks_min0_never_exits (fuel : nat) (s : Subject) :
  0 <= attendedLectures s <= totalLectures s ->
  minimumAttendance s = 0%Q ->
  safeBunks fuel s = None.
Proof.
  intros Ha Hm. unfold safeBunks. rewrite Hm.
  assert (Hguard : nlt (attendancePercentage s) (Fin 0) = false).
  { destruct (Z.eq_dec (totalLectures s) 0) as [E0|Hne].
    - unfold attendancePercentage. now rewrite E0.
    - rewrite percentage_hundredths, nlt_hundredths by lia. simpl.
      apply Z.ltb_ge.
      assert (0 <= (20000 * attendedLectures s + totalLectures s)
                   / (2 * totalLectures s)) by (apply Z.div_pos; lia).
      lia. }
  rewrite Hguard. apply safeBunks_loop_min0_never_exits; lia.
Qed.

(** ** [classesNeeded] *)

(** With [minimum == 100] and fewer lectures attended than held, the test of
    the [classesNeeded] loop holds at every count. *)
Lemma classesNeeded_loop_min100_never_exits (fuel : nat) :
  forall attended total needed : Z,
    0 <= attended < total -> 0 <= needed ->
    classesNeeded_loop fuel attended total 100 needed = None.
Proof.
  induction fuel as [|fuel IH]; intros attended total needed Ha Hn; [reflexivity|].
  simpl. rewrite nlt_ratio by lia. simpl.
  destruct (Z.ltb_spec (100 * (attended + needed + 1) * 1)
              (100 * (total + needed + 1))) as [_|H]; [|lia].
  apply IH; lia.
Qed.

(** A rounded percentage below 100 means that some lecture was missed. *)
Lemma percentage_below_100 (s : Subject) :
  0 <= attendedLectures s <= totalLectures s -> 0 < totalLectures s ->
  nge (attendancePercentage s) (Fin 100) = false ->
  attendedLectures s < totalLectures s.
Proof.
  intros Ha Ht. rewrite percentage_hundredths, nge_hundredths by lia. simpl.
  intros H. apply Z.leb_gt in H.
  destruct (Z.eq_dec (attendedLectures s) (totalLectures s)) as [E|]; [|lia].
  rewrite E in H.
  replace (20000 * totalLectures s + totalLectures s)
    with (10000 * (2 * totalLectures s) + totalLectures s) in H by ring.
  rewrite Z.div_add_l in H by lia.
  rewrite Z.div_small in H by lia. lia.
Qed.

(** C2: with [minimum == 100], lectures held and a percentage below 100,
    [classesNeeded] has no result for any amount of fuel: its loop does not
    exit, and no value marks the target as unreachable. *)
Theorem classesNeeded_min100_never_returns (fuel : nat) (s : Subject) :
  0 <= attendedLectures s <= totalLectures s ->
  0 < totalLectures s ->
  minimumAttendance s = 100%Q ->
  nge (attendancePercentage s) (Fin 100) = false ->
  classesNeeded fuel s = None.
Proof.
  intros Ha Ht Hm Hbelow. unfold classesNeeded. rewrite Hm, Hbelow.
  rewrite classesNeeded_loop_min100_never_exits; [reflexivity| |lia].
  pose proof (percentage_below_100 s Ha Ht Hbelow). lia.
Qed.






(** C3: the searches do not converge on every valid input.  On a subject with
    no lectures and [minimum == 0] the [safeBunks] loop, and on a subject with
    one missed lecture and [minimum == 100] the [classesNeeded] loop, has no
    result whatever the fuel. *)
Theorem searches_do_not_converge (fuel : nat) :
  schema_valid (subj 0 0 0) = true /\ safeBunks fuel (subj 0 0 0) = None
  /\ schema_valid (subj 0 1 100) = true /\ classesNeeded fuel (subj 0 1 100) = None.
Proof.
  split; [reflexivity|]. split.
  - apply safeBunks_min0_never_exits; simpl; [lia|reflexivity].
  - split; [reflexivity|].
    unfold classesNeeded. simpl.
    apply (f_equal (fun o : option Z =>
                      match o with Some n => Some (n + 1) | None => None end)
             (classesNeeded_loop_min100_never_exits fuel 0 1 0 ltac:(lia) ltac:(lia))).
Qed.

(** ** [predictBunk] *)

Lemma recover_loop_classesNeeded_loop (fuel : nat) :
  forall (attended total : Z) (minimum : Q) (c : Z),
    recover_loop fuel attended total minimum c
    = classesNeeded_loop fuel attended total minimum c.
Proof.
  induction fuel as [|fuel IH]; intros attended total minimum c; [reflexivity|].
  simpl. now rewrite IH.
Qed.

Lemma percentage_after_bunk (s : Subject) :
  0 <= totalLectures s ->
  attendancePercentage (with_counts s (totalLectures s + 1) (attendedLectures s))
  = afterBunkPercentage s.
Proof.
  intros Ht. unfold attendancePercentage, afterBunkPercentage. simpl.
  destruct (Z.eqb_spec (totalLectures s + 1) 0); [lia|reflexivity].
Qed.

(** C5, as amended: when the bunk is not safe, [classesNeededToRecover] is
    [classesNeeded] of the subject after the bunk (attended unchanged, total
    plus one), with no further increment: for every fuel both have the same
    result or both have none, and a prediction that reports [canBunk = false]
    carries that value. *)
Theorem recover_is_classesNeeded_after_bunk (fuel : nat) (s : Subject) :
  0 <= totalLectures s ->
  nge (afterBunkPercentage s) (Fin (minimumAttendance s)) = false ->
  recoverClasses fuel s false
  = classesNeeded fuel (with_counts s (totalLectures s + 1) (attendedLectures s))
  /\ forall p : Prediction,
       predict fuel s = Some p ->
       canBunk p = false
       /\ Some (classesNeededToRecover p)
          = classesNeeded fuel
              (with_counts s (totalLectures s + 1) (attendedLectures s)).
Proof.
  intros Ht Hunsafe.
  assert (E : recoverClasses fuel s false
              = classesNeeded fuel
                  (with_counts s (totalLectures s + 1) (attendedLectures s))).
  { unfold classesNeeded. rewrite percentage_after_bunk by exact Ht.
    simpl. rewrite Hunsafe. unfold recoverClasses. simpl.
    now rewrite recover_loop_classesNeeded_loop. }
  split; [exact E|].
  intros p Hp. unfold predict in Hp. rewrite Hunsafe in Hp.
  destruct (safeBunks fuel s) as [bunks|]; [|discriminate].
  rewrite E in Hp.
  destruct (classesNeeded fuel _) as [c|]; [|discriminate].
  injection Hp as <-. simpl. now split.
Qed.

(** ** [simulateBunks] *)

Lemma simulate_loop_length (count : nat) :
  forall (i attended total : Z) (minimum : Q),
    length (simulate_loop count i attended total minimum) = count.
Proof.
  induction count as [|count IH]; intros; simpl; [reflexivity|].
  now rewrite IH.
Qed.

Lemma simulate_loop_lookup (count : nat) :
  forall (i attended total : Z) (minimum : Q) (k : nat),
    (k < count)%nat ->
    simulate_loop count i attended total minimum !! k
    = Some
        (let total' := total + Z.of_nat k + 1 in
         let percentage := Number (toFixed (ratio100 attended total')) in
         {| bunkNumber := i + Z.of_nat k;
            stepTotal := total';
            stepAttended := attended;
            attendance := percentage;
            isSafe := nge percentage (Fin minimum);
            stepStatus := if nge percentage (Fin minimum) then "safe" else "danger" |}).
Proof.
  induction count as [|count IH]; intros i attended total minimum k Hk; [lia|].
  destruct k as [|k].
  - simpl. now rewrite !Z.add_0_r.
  - change (simulate_loop (S count) i attended total minimum !! S k)
      with (simulate_loop count (i + 1) attended (total + 1) minimum !! k).
    rewrite IH by lia. rewrite Nat2Z.inj_succ.
    replace (total + 1 + Z.of_nat k + 1) with (total + Z.succ (Z.of_nat k) + 1) by lia.
    replace (i + 1 + Z.of_nat k) with (i + Z.succ (Z.of_nat k)) by lia.
    reflexivity.
Qed.

Lemma simulate_loop_step (s : Subject) (count : nat) (i : Z) :
  0 <= totalLectures s -> 1 <= i <= Z.of_nat count ->
  simulate_loop count 1 (attendedLectures s) (totalLectures s) (minimumAttendance s)
    !! Z.to_nat (i - 1)
  = Some (step_record s i).
Proof.
  intros Ht Hi. rewrite simulate_loop_lookup by lia.
  unfold step_record, attendancePercentage. simpl.
  destruct (Z.eqb_spec (totalLectures s + i) 0) as [?|_]; [lia|].
  rewrite Z2Nat.id by lia.
  replace (totalLectures s + (i - 1) + 1) with (totalLectures s + i) by lia.
  replace (1 + (i - 1)) with i by lia. reflexivity.
Qed.

Lemma findIndex_from_spec {A : Type} (p : A -> bool) (l : list A) :
  forall k : Z,
    0 <= k ->
    (findIndex_from p l k = -1
     /\ forall (j : nat) (x : A), l !! j = Some x -> p x = false)
    \/ (k <= findIndex_from p l k < k + Z.of_nat (length l)
        /\ (exists x, l !! Z.to_nat (findIndex_from p l k - k) = Some x /\ p x = true)
        /\ forall (j : nat) (x : A),
             (j < Z.to_nat (findIndex_from p l k - k))%nat ->
             l !! j = Some x -> p x = false).
Proof.
  induction l as [|y l IH]; intros k Hk; simpl.
  - left. split; [reflexivity|]. intros j x H. discriminate.
  - destruct (p y) eqn:Hy.
    + right. split; [lia|]. rewrite Z.sub_diag. simpl. split.
      * now exists y.
      * intros j x Hj. lia.
    + destruct (IH (k + 1) ltac:(lia)) as [[Hnone Hall]|(Hrange & (x & Hx & Hpx) & Hbefore)].
      * left. split; [exact Hnone|].
        intros [|j] x Hjx; simpl in Hjx; [congruence|eauto].
      * right. split; [lia|].
        replace (Z.to_nat (findIndex_from p l (k + 1) - k))
          with (S (Z.to_nat (findIndex_from p l (k + 1) - (k + 1)))) by lia.
        split.
        -- exists x. now split.
        -- intros [|j] z Hj Hz; simpl in Hz; [congruence|].
           apply (Hbefore j z); [lia|exact Hz].
Qed.

(** C6: for [1 <= bunkCount <= 50] and valid counters [simulateBunks] answers
    with exactly [bunkCount] step records, in order; the record of step [i]
    has [totalLectures = total + i], the attended count unchanged, the rounded
    percentage of these counters and [isSafe = (attendance >= minimum)]; the
    turning point is the first step that is not safe, and [null] when every
    step is safe. *)
Theorem simulateBunks_steps (db : DB) (user subjectId : positive) (n : Z)
    (s : Subject) :
  findSubject db subjectId user = Some s ->
  1 <= n <= 50 ->
  0 <= attendedLectures s <= totalLectures s ->
  exists r : Simulation,
    simulateBunks db user subjectId n = Json 200 r
    /\ length (simulation r) = Z.to_nat n
    /\ (forall i : Z,
          1 <= i <= n -> simulation r !! Z.to_nat (i - 1) = Some (step_record s i))
    /\ match turningPoint (analysis r) with
       | Some k =>
           1 <= k <= n
           /\ isSafe (step_record s k) = false
           /\ (forall j : Z, 1 <= j < k -> isSafe (step_record s j) = true)
           /\ simSafeBunks (analysis r) = k - 1
       | None =>
           (forall j : Z, 1 <= j <= n -> isSafe (step_record s j) = true)
           /\ simSafeBunks (analysis r) = n
       end.
Proof.
  intros Hfind Hn Hvalid. unfold simulateBunks. rewrite Hfind.
  destruct (Z.eqb_spec n 0) as [?|_]; [lia|].
  destruct (Z.ltb_spec n 1) as [?|_]; [lia|].
  destruct (Z.ltb_spec 50 n) as [?|_]; [lia|]. simpl.
  set (sim := simulate_loop (Z.to_nat n) 1 (attendedLectures s) (totalLectures s)
                (minimumAttendance s)).
  assert (Hlen : length sim = Z.to_nat n) by apply simulate_loop_length.
  assert (Hstep : forall i : Z,
             1 <= i <= n -> sim !! Z.to_nat (i - 1) = Some (step_record s i)).
  { intros i Hi. apply simulate_loop_step; lia. }
  assert (Hlast : sim !! (length sim - 1)%nat = Some (step_record s n)).
  { rewrite Hlen. replace (Z.to_nat n - 1)%nat with (Z.to_nat (n - 1)) by lia.
    apply Hstep. lia. }
  rewrite Hlast. eexists. split; [reflexivity|]. simpl.
  split; [exact Hlen|]. split; [exact Hstep|].
  unfold findIndex.
  destruct (findIndex_from_spec (fun st : Step => negb (isSafe st)) sim 0 ltac:(lia))
    as [[Hnone Hall]|(Hrange & (x & Hx & Hpx) & Hbefore)].
  - rewrite Hnone. simpl. split; [|reflexivity].
    intros j Hj. specialize (Hall _ _ (Hstep j Hj)).
    now apply negb_false_iff in Hall.
  - set (tp := findIndex_from (fun st : Step => negb (isSafe st)) sim 0) in *.
    rewrite Hlen in Hrange.
    destruct (Z.eqb_spec tp (-1)) as [?|_]; [lia|].
    rewrite Z.sub_0_r in Hx, Hbefore.
    split; [lia|]. split; [|split; [|lia]].
    + rewrite <- (Z.add_simpl_r tp 1) in Hx at 1.
      rewrite Hstep in Hx by lia. injection Hx as <-.
      now apply negb_true_iff in Hpx.
    + intros j Hj.
      specialize (Hbefore (Z.to_nat (j - 1)) (step_record s j) ltac:(lia)
                    (Hstep j ltac:(lia))).
      now apply negb_false_iff in Hbefore.
Qed.

(** C8: for an integer [bunkCount], [simulateBunks] answers with a 400 error
    exactly when [bunkCount] is below 1 or above 50. *)
Theorem simulateBunks_rejects_iff (db : DB) (user subjectId : positive) (n : Z) :
  (exists message, simulateBunks db user subjectId n = AppError message 400)
  <-> (n < 1 \/ 50 < n).
Proof.
  unfold simulateBunks. split.
  - intros [message H].
    destruct (Z.eqb_spec n 0) as [?|_]; [lia|].
    destruct (Z.ltb_spec n 1) as [?|_]; [lia|].
    destruct (Z.ltb_spec 50 n) as [?|_]; [lia|]. simpl in H.
    destruct (findSubject db subjectId user) as [s|]; [|discriminate].
    destruct (_ !! _); discriminate.
  - intros [H|H].
    + assert ((n =? 0) || (n <? 1) = true) as ->.
      { apply orb_true_iff. right. now apply Z.ltb_lt. }
      eauto.
    + destruct (Z.eqb_spec n 0) as [?|_]; [lia|].
      destruct (Z.ltb_spec n 1) as [?|_]; [lia|].
      destruct (Z.ltb_spec 50 n) as [_|?]; [|lia]. simpl. eauto.
Qed.


(** ** [markAttendance] and [deleteAttendance] *)





(** * Concrete inputs *)



Lemma classesNeeded_min100_never_returns_witness :
  classesNeeded 5 (subj 0 1 100) = None.
Proof.
  apply (classesNeeded_min100_never_returns 5 (subj 0 1 100));
    simpl; [lia|lia|reflexivity|reflexivity].
Defined.



(** C5, counterexample: with 30 of 40 lectures attended and a minimum of 75
    one bunk is not safe; [predictBunk] reports 3 classes to recover, and
    [classesNeeded] of the counters after the bunk (30 of 41) is 3 as well,
    not 3 less one. *)
Lemma recover_not_incremented :
  exists p : Prediction,
    predictBunk 3 (db1 (subj 30 40 75)) 1 1 = Some (Json 200 p)
    /\ canBunk p = false
    /\ classesNeededToRecover p = 3
    /\ classesNeeded 3 (subj 30 41 75) = Some 3
    /\ Some (classesNeededToRecover p)
       <> option_map (Z.add 1) (classesNeeded 3 (subj 30 41 75)).
Proof.
  eexists. split; [vm_compute; reflexivity|].
  repeat split; try (vm_compute; reflexivity).
  vm_compute. discriminate.
Qed.

Lemma recover_is_classesNeeded_after_bunk_witness :
  recoverClasses 3 (subj 30 40 75) false = classesNeeded 3 (subj 30 41 75).
Proof.
  apply (recover_is_classesNeeded_after_bunk 3 (subj 30 40 75));
    [simpl; lia|reflexivity].
Defined.

Lemma simulateBunks_steps_witness :
  exists r : Simulation,
    simulateBunks (db1 (subj 10 10 75)) 1 1 5 = Json 200 r
    /\ length (simulation r) = 5%nat.
Proof.
  destruct (simulateBunks_steps (db1 (subj 10 10 75)) 1 1 5 (subj 10 10 75))
    as (r & Hr & Hlen & _); [reflexivity|lia|simpl; lia|].
  exists r. split; [exact Hr|exact Hlen].
Defined.


(** C9: with 29999 of 39999 lectures attended and a minimum of 75 the
    percentage after one bunk is 74.9975, below the minimum, and rounds to
    75.00.  [predictBunk] compares the rounded value and reports
    [canBunk = true]; the loop of [safeBunks] compares the value itself and
    counts no safe bunk.  Both are in the same response. *)
Theorem canBunk_with_no_safe_bunk :
  schema_valid (subj 29999 39999 75) = true
  /\ nge (ratio100 29999 (39999 + 1)) (Fin 75) = false
  /\ exists p : Prediction,
       predictBunk 1 (db1 (subj 29999 39999 75)) 1 1 = Some (Json 200 p)
       /\ afterBunkAttendance p = Fin (7500 # 100)
       /\ canBunk p = true
       /\ predSafeBunks p = 0.
Proof.
  split; [reflexivity|]. split; [vm_compute; reflexivity|].
  eexists. split; [vm_compute; reflexivity|]. repeat split.
Qed.


(** ** The same inputs in binary64 *)

(** The values used above are the values of binary64 arithmetic. *)
Lemma binary64_agrees :
  Binary64.safeBunks 11 38 40 (Binary64.of_Z 75) = Some 10
  /\ Binary64.safeBunks 3 9 10 (Binary64.of_Z 70) = Some 2
  /\ Binary64.classesNeeded 3 30 41 (Binary64.of_Z 75) = Some 3
  /\ Binary64.canBunk 30 40 (Binary64.of_Z 75) = false
  /\ Binary64.canBunk 29999 39999 (Binary64.of_Z 75) = true
  /\ Binary64.safeBunks 1 29999 39999 (Binary64.of_Z 75) = Some 0
  /\ Binary64.toFixed (Binary64.ratio100 5 3) = Binary64.Hundredths 16667
  /\ Binary64.safeBunks 1 5 3 (Binary64.of_Z 150) = Some 0
  /\ Binary64.classesNeeded 1 5 3 (Binary64.of_Z 150) = Some 0
  /\ Binary64.classesNeeded 1 0 0 (Binary64.of_Z 100) = Some 1
  /\ Binary64.classesNeeded 2000 0 1 (Binary64.of_Z 100) = None
  /\ Binary64.safeBunks 2000 0 0 (Binary64.of_Z 0) = None.
Proof. vm_compute. repeat split. Qed.

(** Where a quotient meets the minimum exactly, binary64 can fall short of
    it: 57 / 100 * 100 is below 57 in binary64, so with 57 of 99 lectures
    attended and a minimum of 57 the loop of [safeBunks] counts no bunk,
    where exact arithmetic counts one. *)
Lemma binary64_boundary :
  Binary64.safeBunks 2 57 99 (Binary64.of_Z 57) = Some 0
  /\ safeBunks 2 (subj 57 99 57) = Some 1.
Proof. vm_compute. split; reflexivity. Qed.

(** * Further properties of the calculator *)













Lemma percentage_is_finite (s : Subject) :
  exists q : Q, attendancePercentage s = Fin q.
Proof.
  unfold attendancePercentage.
  destruct (Z.eqb_spec (totalLectures s) 0) as [_|Hne]; [now eexists|].
  rewrite ratio100_Fin by exact Hne. unfold toFixed.
  destruct (Qle_bool _ _); [now eexists|].
  destruct (Qltb _ _); now eexists.
Qed.

(** X4: Whatever the subject holds, one of the two getters answers [0], before
    any loop: a subject never has safe bunks left and classes to catch up at
    the same time. *)
Theorem safeBunks_or_classesNeeded_zero (fuel : nat) (s : Subject) :
  safeBunks fuel s = Some 0 \/ classesNeeded fuel s = Some 0.
Proof.
  unfold safeBunks, classesNeeded.
  destruct (percentage_is_finite s) as [q ->]. simpl.
  destruct (Qltb q (minimumAttendance s)); [now left|now right].
Qed.






(** * Further properties of the bunk predictor *)







(** X8: [predictBunk] is the one-step simulation: whenever it answers,
    [simulateBunks] with one bunk answers with a single step that has the same
    percentage and the same verdict, and reports a turning point exactly when
    [canBunk] is false. *)
Theorem predictBunk_is_one_step_simulation (fuel : nat) (db : DB)
    (user subjectId : positive) (p : Prediction) :
  predictBunk fuel db user subjectId = Some (Json 200 p) ->
  exists (r : Simulation) (st : Step),
    simulateBunks db user subjectId 1 = Json 200 r
    /\ simulation r = [st]
    /\ stepTotal st = afterBunkTotal p
    /\ attendance st = afterBunkAttendance p
    /\ isSafe st = canBunk p
    /\ turningPoint (analysis r) = (if canBunk p then None else Some 1)
    /\ simSafeBunks (analysis r) = (if canBunk p then 1 else 0).
Proof.
  unfold predictBunk, simulateBunks. simpl.
  destruct (findSubject db subjectId user) as [s|]; [|discriminate].
  destruct (predict fuel s) as [p'|] eqn:Hp; [|discriminate].
  intros H. injection H as ->. unfold predict in Hp.
  destruct (safeBunks fuel s) as [bunks|]; [|discriminate].
  destruct (recoverClasses fuel s _) as [c|]; [|discriminate].
  injection Hp as <-. simpl. unfold afterBunkPercentage, findIndex. simpl.
  eexists _, _. split; [reflexivity|]. simpl.
  split; [reflexivity|]. repeat split.
  - now destruct (nge _ _).
  - now destruct (nge _ _).
Qed.

Lemma predictBunk_is_one_step_simulation_witness :
  exists r : Simulation,
    simulateBunks (db1 (subj 30 40 75)) 1 1 1 = Json 200 r
    /\ turningPoint (analysis r) = Some 1.
Proof.
  destruct (predictBunk 3 (db1 (subj 30 40 75)) 1 1) as [[c p| |]|] eqn:Hp;
    try (vm_compute in Hp; discriminate).
  assert (Hc : c = 200) by (vm_compute in Hp; congruence). subst c.
  destruct (predictBunk_is_one_step_simulation 3 _ 1%positive 1%positive p Hp)
    as (r & st & Hr & _ & _ & _ & _ & Htp & _).
  assert (Hcan : canBunk p = false).
  { vm_compute in Hp. injection Hp as <-. reflexivity. }
  rewrite Hcan in Htp. exists r. split; assumption.
Defined.

(** * Further properties of the simulation *)

Lemma simulateBunks_found (db : DB) (user subjectId : positive) (n : Z)
    (s : Subject) :
  findSubject db subjectId user = Some s ->
  1 <= n <= 50 ->
  exists r : Simulation,
    simulateBunks db user subjectId n = Json 200 r
    /\ simulation r
       = simulate_loop (Z.to_nat n) 1 (attendedLectures s) (totalLectures s)
           (minimumAttendance s)
    /\ simSafeBunks (analysis r)
       = (let tp := findIndex (fun st => negb (isSafe st)) (simulation r) in
          if tp =? -1 then n else tp).
Proof.
  intros Hfind Hn. unfold simulateBunks. rewrite Hfind.
  destruct (Z.eqb_spec n 0) as [?|_]; [lia|].
  destruct (Z.ltb_spec n 1) as [?|_]; [lia|].
  destruct (Z.ltb_spec 50 n) as [?|_]; [lia|]. simpl.
  set (sim := simulate_loop _ _ _ _ _).
  assert (Hlen : length sim = Z.to_nat n) by apply simulate_loop_length.
  destruct (lookup_lt_is_Some_2 sim (length sim - 1)%nat ltac:(lia)) as [final ->].
  eexists. split; [reflexivity|]. split; reflexivity.
Qed.

Lemma simulate_loop_prefix (count : nat) :
  forall (k : nat) (i attended total : Z) (minimum : Q),
    (k <= count)%nat ->
    firstn k (simulate_loop count i attended total minimum)
    = simulate_loop k i attended total minimum.
Proof.
  induction count as [|count IH]; intros k i attended total minimum Hk.
  - assert (k = 0%nat) as -> by lia. reflexivity.
  - destruct k as [|k]; [reflexivity|]. simpl. f_equal. apply IH. lia.
Qed.

(** X9: A shorter simulation is the beginning of a longer one: the first [k]
    records of the simulation of [n] bunks are the simulation of [k] bunks. *)
Theorem simulateBunks_prefix (db : DB) (user subjectId : positive) (n k : Z)
    (s : Subject) :
  findSubject db subjectId user = Some s ->
  1 <= k <= n -> n <= 50 ->
  exists r r' : Simulation,
    simulateBunks db user subjectId n = Json 200 r
    /\ simulateBunks db user subjectId k = Json 200 r'
    /\ firstn (Z.to_nat k) (simulation r) = simulation r'.
Proof.
  intros Hfind Hk Hn.
  destruct (simulateBunks_found db user subjectId n s Hfind ltac:(lia))
    as (r & Hr & Hsim & _).
  destruct (simulateBunks_found db user subjectId k s Hfind ltac:(lia))
    as (r' & Hr' & Hsim' & _).
  exists r, r'. split; [exact Hr|]. split; [exact Hr'|].
  rewrite Hsim, Hsim'. apply simulate_loop_prefix. lia.
Qed.

Lemma simulateBunks_prefix_witness :
  exists r r' : Simulation,
    simulateBunks (db1 (subj 10 10 75)) 1 1 5 = Json 200 r
    /\ simulateBunks (db1 (subj 10 10 75)) 1 1 3 = Json 200 r'
    /\ firstn 3 (simulation r) = simulation r'.
Proof.
  apply (simulateBunks_prefix (db1 (subj 10 10 75)) 1 1 5 3 (subj 10 10 75));
    [reflexivity|lia|lia].
Defined.









(** * The counters and the attendance records *)

Section CountRecords.

Context (Q : DailyAttendance -> Prop) `{!forall r, Decision (Q r)}.

Lemma count_records_nonneg (records : gmap positive DailyAttendance) :
  0 <= count_records Q records.
Proof using Type. unfold count_records. lia. Qed.

Lemma count_records_delete (records : gmap positive DailyAttendance)
    (id : positive) :
  count_records Q (delete id records)
  = count_records Q records - counts Q (records !! id).
Proof using Type.
  unfold count_records, counts.
  rewrite map_filter_delete, map_size_delete, map_lookup_filter.
  destruct (records !! id) as [r|] eqn:Hr; simpl; [|lia].
  destruct (decide (Q r)) as [HQ|HQ].
  - rewrite option_guard_True by exact HQ. simpl.
    assert (size (base.filter (fun entry : positive * DailyAttendance => Q entry.2)
                    records) <> 0%nat).
    { apply (map_size_ne_0_lookup_2 _ id).
      exists r. now apply map_lookup_filter_Some_2. }
    lia.
  - rewrite option_guard_False by exact HQ. simpl. lia.
Qed.

Lemma count_records_insert (records : gmap positive DailyAttendance)
    (id : positive) (r : DailyAttendance) :
  count_records Q (<[id := r]> records)
  = count_records Q records - counts Q (records !! id) + counts Q (Some r).
Proof using Type.
  rewrite <- count_records_delete. rewrite <- (insert_delete_eq records).
  assert (Hfresh : delete id records !! id = None) by apply lookup_delete_eq.
  revert Hfresh. generalize (delete id records). intros m Hfresh.
  unfold count_records, counts. rewrite map_filter_insert. simpl.
  destruct (decide (Q r)) as [HQ|HQ].
  - rewrite map_size_insert_None; [lia|].
    apply map_lookup_filter_None_2. now left.
  - rewrite (delete_id _ _ Hfresh). lia.
Qed.

Lemma count_records_member (records : gmap positive DailyAttendance)
    (id : positive) (r : DailyAttendance) :
  records !! id = Some r -> Q r -> 1 <= count_records Q records.
Proof using Type.
  intros Hr HQ. pose proof (count_records_delete records id) as E.
  pose proof (count_records_nonneg (delete id records)).
  rewrite Hr in E. unfold counts in E. rewrite decide_True in E by exact HQ. lia.
Qed.

End CountRecords.

Lemma count_records_le (Q Q' : DailyAttendance -> Prop)
    `{!forall r, Decision (Q r)} `{!forall r, Decision (Q' r)}
    (records : gmap positive DailyAttendance) :
  (forall r, Q r -> Q' r) ->
  count_records Q records <= count_records Q' records.
Proof.
  intros Himp. induction records as [|id r records Hfresh IH] using map_ind.
  - reflexivity.
  - rewrite !count_records_insert, Hfresh. unfold counts.
    destruct (decide (Q r)) as [HQ|HQ]; destruct (decide (Q' r)) as [HQ'|HQ'];
      try lia. exfalso. auto.
Qed.

(** A subject whose counters are the counts of its records passes the
    schema. *)
Lemma subject_ok_valid (records : gmap positive DailyAttendance)
    (subjectId : positive) (s : Subject) :
  subject_ok records subjectId s -> schema_valid s = true.
Proof.
  intros (Hlo & Hhi & Ht & Ha). unfold schema_valid.
  rewrite Hlo, Hhi, !andb_true_r.
  pose proof (count_records_nonneg (fun r => attSubject r = subjectId) records).
  pose proof (count_records_nonneg
                (fun r => attSubject r = subjectId /\ attStatus r = present) records).
  pose proof (count_records_le
                (fun r => attSubject r = subjectId /\ attStatus r = present)
                (fun r => attSubject r = subjectId) records
                ltac:(intros r [Hr _]; exact Hr)).
  unfold lecturesHeld, lecturesAttended in *.
  repeat (apply andb_true_intro; split); apply Z.leb_le; lia.
Qed.

Lemma count_records_change (Q : DailyAttendance -> Prop)
    `{!forall r, Decision (Q r)} (records : gmap positive DailyAttendance)
    (id : positive) (change : option DailyAttendance) :
  count_records Q (change_record records id change)
  = count_records Q records - counts Q (records !! id) + counts Q change.
Proof.
  destruct change as [r|]; simpl.
  - apply count_records_insert.
  - rewrite count_records_delete. simpl. lia.
Qed.

Lemma findSubject_Some (db : DB) (subjectId user : positive) (s : Subject) :
  findSubject db subjectId user = Some s ->
  subjects db !! subjectId = Some s /\ subjectUser s = user.
Proof.
  unfold findSubject. destruct (subjects db !! subjectId) as [s0|]; [|discriminate].
  destruct (Pos.eqb_spec (subjectUser s0) user) as [E|_]; [|discriminate].
  intros H. injection H as <-. now split.
Qed.

Lemma findAttendance_Some (db : DB) (user subjectId : positive) (date : Z)
    (id : positive) (r : DailyAttendance) :
  findAttendance db user subjectId date = Some (id, r) ->
  attendances db !! id = Some r
  /\ attUser r = user /\ attSubject r = subjectId /\ attDate r = date.
Proof.
  unfold findAttendance. intros H. apply find_some in H as [Hin Hm].
  apply list_elem_of_In, elem_of_map_to_list in Hin. split; [exact Hin|].
  unfold matches in Hm. simpl in Hm.
  apply andb_prop in Hm as [Hm Hd]. apply andb_prop in Hm as [Hu Hs].
  apply Pos.eqb_eq in Hu, Hs. apply Z.eqb_eq in Hd. now repeat split.
Qed.

Lemma record_ok_insert (subs : gmap positive Subject) (subjectId : positive)
    (s s' : Subject) (r : DailyAttendance) :
  record_ok subs r -> subs !! subjectId = Some s ->
  subjectUser s' = subjectUser s ->
  record_ok (<[subjectId := s']> subs) r.
Proof.
  intros [Hnotes Hown] Hs Huser. split; [exact Hnotes|].
  destruct (decide (attSubject r = subjectId)) as [E|Hne].
  - rewrite E, lookup_insert_eq. rewrite E, Hs in Hown. congruence.
  - now rewrite lookup_insert_ne by congruence.
Qed.

(** One step of a handler: the record at [id], which counted for subject
    [subjectId] if it existed, is replaced or removed, and the subject is saved
    with counters moved by what the old record counted and the new one counts.
    The save passes validation and the store stays consistent. *)
Lemma consistent_step (db : DB) (subjectId : positive) (s s' : Subject)
    (id : positive) (change : option DailyAttendance) :
  consistent db ->
  subjects db !! subjectId = Some s ->
  subjectUser s' = subjectUser s ->
  minimumAttendance s' = minimumAttendance s ->
  (forall r, attendances db !! id = Some r -> attSubject r = subjectId) ->
  (forall r, change = Some r ->
             attSubject r = subjectId /\ attUser r = subjectUser s
             /\ notes_valid (attNotes r) = true) ->
  totalLectures s'
  = totalLectures s
    - counts (fun r => attSubject r = subjectId) (attendances db !! id)
    + counts (fun r => attSubject r = subjectId) change ->
  attendedLectures s'
  = attendedLectures s
    - counts (fun r => attSubject r = subjectId /\ attStatus r = present)
        (attendances db !! id)
    + counts (fun r => attSubject r = subjectId /\ attStatus r = present) change ->
  let records := change_record (attendances db) id change in
  saveSubject (mkDB (subjects db) records) subjectId s'
  = Some (mkDB (<[subjectId := s']> (subjects db)) records)
  /\ consistent (mkDB (<[subjectId := s']> (subjects db)) records).
Proof.
  intros [Hsubs Hrecs] Hs Huser Hmin Hold Hnew Htotal Hattended records.
  assert (Hcons : consistent (mkDB (<[subjectId := s']> (subjects db)) records)).
  { split; simpl.
    - intros sid0 s0 Hl. unfold subject_ok, lecturesHeld, lecturesAttended.
      subst records. rewrite !count_records_change.
      destruct (decide (subjectId = sid0)) as [<-|Hne].
      + rewrite lookup_insert_eq in Hl. injection Hl as <-.
        destruct (Hsubs subjectId s Hs) as (Hlo & Hhi & Ht & Ha).
        unfold lecturesHeld, lecturesAttended in Ht, Ha.
        rewrite Hmin. repeat split; try assumption; lia.
      + rewrite lookup_insert_ne in Hl by exact Hne.
        destruct (Hsubs sid0 s0 Hl) as (Hlo & Hhi & Ht & Ha).
        unfold lecturesHeld, lecturesAttended in Ht, Ha.
        assert (Ec : forall o : option DailyAttendance,
                   (forall r, o = Some r -> attSubject r = subjectId) ->
                   counts (fun r => attSubject r = sid0) o = 0
                   /\ counts (fun r => attSubject r = sid0 /\ attStatus r = present) o
                      = 0).
        { intros [r|] Hr; simpl; [|now split].
          specialize (Hr r eq_refl).
          rewrite !decide_False; [now split| |]; intros H; destruct_and?; congruence. }
        destruct (Ec (attendances db !! id) Hold) as [-> ->].
        destruct (Ec change ltac:(intros r Hr; now apply Hnew)) as [-> ->].
        repeat split; try assumption; lia.
    - intros id0 r0 Hl. subst records. unfold change_record in Hl.
      assert (Hkeep : forall r, attendances db !! id0 = Some r ->
                        record_ok (<[subjectId := s']> (subjects db)) r).
      { intros r Hr. apply (record_ok_insert _ _ s); [|exact Hs|exact Huser].
        exact (Hrecs id0 r Hr). }
      destruct change as [r|].
      + destruct (decide (id = id0)) as [<-|Hne].
        * rewrite lookup_insert_eq in Hl. injection Hl as <-.
          destruct (Hnew r eq_refl) as (Hsub & Husr & Hnotes).
          split; [exact Hnotes|]. rewrite Hsub, lookup_insert_eq. congruence.
        * rewrite lookup_insert_ne in Hl by exact Hne. now apply Hkeep.
      + apply lookup_delete_Some in Hl as [_ Hl]. now apply Hkeep. }
  split; [|exact Hcons].
  unfold saveSubject. simpl.
  destruct Hcons as [Hsubs' _]. simpl in Hsubs'.
  now rewrite (subject_ok_valid records subjectId s'
                 (Hsubs' subjectId s' (lookup_insert_eq _ _ _))).
Qed.

(** Closes the side conditions of [consistent_step]: what the old and the
    new record count, by cases on their subject and status. *)
Ltac count_cases :=
  simpl; unfold counts; repeat case_decide; simpl in *; destruct_and?;
  first
    [ lia
    | congruence
    | exfalso;
      match goal with
      | H : ~ _ |- _ => apply H; repeat split; congruence
      end ].

Lemma consistent_same_subject (db : DB) (subjectId : positive) (s : Subject)
    (records : gmap positive DailyAttendance) :
  subjects db !! subjectId = Some s ->
  consistent (mkDB (<[subjectId := s]> (subjects db)) records) ->
  consistent (mkDB (subjects db) records).
Proof. intros Hs. now rewrite (insert_id _ _ _ Hs). Qed.

(** X12: [markAttendance] keeps the store consistent: whatever the request, after
    it every subject's [totalLectures] is still the number of its records and
    its [attendedLectures] the number of those marked present.  When the
    notes of the request pass the schema, no save throws. *)
Theorem markAttendance_keeps_consistent (startOfDay : Z -> Z) (db : DB)
    (user subjectId : positive) (date : Z) (status : Status)
    (notes : option string) :
  consistent db ->
  consistent (markAttendance startOfDay db user subjectId date status notes).1
  /\ (notes_valid notes = true ->
      (markAttendance startOfDay db user subjectId date status notes).2 <> Thrown).
Proof.
  intros Hc. unfold markAttendance.
  destruct (findSubject db subjectId user) as [s|] eqn:Hf;
    [|split; [exact Hc|discriminate]].
  apply findSubject_Some in Hf as [Hs Hu].
  destruct (findAttendance db user subjectId (startOfDay date))
    as [[id existing]|] eqn:Hfa.
  - apply findAttendance_Some in Hfa as (Hr & Hru & Hrs & Hrd).
    pose proof (proj2 Hc id existing Hr) as [Hen _].
    set (updated := mkAttendance _ _ _ _ _).
    destruct (notes_valid (attNotes updated)) eqn:Hnv; simpl in Hnv.
    2: { split; [exact Hc|]. intros Hn. destruct notes; simpl in *; congruence. }
    assert (Hstep : forall s' : Subject,
               subjectUser s' = subjectUser s ->
               minimumAttendance s' = minimumAttendance s ->
               totalLectures s' = totalLectures s ->
               attendedLectures s'
               = attendedLectures s
                 - match attStatus existing with present => 1 | absent => 0 end
                 + match status with present => 1 | absent => 0 end ->
               saveSubject (mkDB (subjects db) (<[id := updated]> (attendances db)))
                 subjectId s'
               = Some (mkDB (<[subjectId := s']> (subjects db))
                         (<[id := updated]> (attendances db)))
               /\ consistent (mkDB (<[subjectId := s']> (subjects db))
                                (<[id := updated]> (attendances db)))).
    { intros s' H1 H2 H3 H4.
      apply (consistent_step db subjectId s s' id (Some updated)); try assumption.
      - intros r Hr'. congruence.
      - intros r Hr'. injection Hr' as <-. simpl. repeat split; congruence.
      - rewrite Hr, H3. subst updated. count_cases.
      - rewrite Hr, H4. subst updated.
        destruct (attStatus existing) eqn:Ho, status; count_cases. }
    destruct (attStatus existing) eqn:Ho, status.
    + destruct (Hstep s eq_refl eq_refl eq_refl ltac:(lia)) as [_ Hc'].
      split; [|discriminate]. simpl.
      exact (consistent_same_subject db subjectId s _ Hs Hc').
    + destruct (Hstep (with_counts s (totalLectures s) (attendedLectures s - 1))
                  eq_refl eq_refl eq_refl ltac:(simpl; lia)) as [-> Hc'].
      split; [exact Hc'|discriminate].
    + destruct (Hstep (with_counts s (totalLectures s) (attendedLectures s + 1))
                  eq_refl eq_refl eq_refl ltac:(simpl; lia)) as [-> Hc'].
      split; [exact Hc'|discriminate].
    + destruct (Hstep s eq_refl eq_refl eq_refl ltac:(lia)) as [_ Hc'].
      split; [|discriminate]. simpl.
      exact (consistent_same_subject db subjectId s _ Hs Hc').
  - destruct (notes_valid notes) eqn:Hnv; [|split; [exact Hc|congruence]].
    set (id := fresh (dom (attendances db))).
    assert (Hfresh : attendances db !! id = None) by apply not_elem_of_dom, is_fresh.
    set (created := mkAttendance _ _ _ _ _).
    set (s' := with_counts s _ _).
    destruct (consistent_step db subjectId s s' id (Some created))
      as [Hsave Hc']; try assumption; try reflexivity.
    + intros r Hr. congruence.
    + intros r Hr. injection Hr as <-. simpl. repeat split; congruence.
    + rewrite Hfresh. subst created s'. count_cases.
    + rewrite Hfresh. subst created s'. destruct status; count_cases.
    + unfold change_record in Hsave, Hc'. rewrite Hsave.
      split; [exact Hc'|discriminate].
Qed.

Lemma saveSubject_ignores_records (db : DB) (subjectId : positive) (s : Subject)
    (records : gmap positive DailyAttendance) (db' : DB) :
  saveSubject (mkDB (subjects db) records) subjectId s = Some db' ->
  saveSubject db subjectId s
  = Some (mkDB (<[subjectId := s]> (subjects db)) (attendances db)).
Proof.
  unfold saveSubject. simpl. now destruct (schema_valid s).
Qed.

Lemma consistent_orphan_removed (db : DB) (id : positive) (att : DailyAttendance) :
  consistent db ->
  attendances db !! id = Some att ->
  subjects db !! attSubject att = None ->
  consistent (mkDB (subjects db) (delete id (attendances db))).
Proof.
  intros [Hsubs Hrecs] Hatt Horphan. split; simpl.
  - intros sid0 s0 Hl. destruct (Hsubs sid0 s0 Hl) as (Hlo & Hhi & Ht & Ha).
    unfold subject_ok, lecturesHeld, lecturesAttended in *.
    rewrite !count_records_delete, Hatt.
    assert (attSubject att <> sid0) by congruence.
    repeat split; try assumption; count_cases.
  - intros id0 r0 Hl. apply lookup_delete_Some in Hl as [_ Hl].
    exact (Hrecs id0 r0 Hl).
Qed.

(** X13: [deleteAttendance] keeps the store consistent, and its save never
    throws on a consistent store. *)
Theorem deleteAttendance_keeps_consistent (db : DB) (user id : positive) :
  consistent db ->
  consistent (deleteAttendance db user id).1
  /\ (deleteAttendance db user id).2 <> Thrown.
Proof.
  intros Hc. unfold deleteAttendance.
  destruct (attendances db !! id) as [att|] eqn:Hatt;
    [|split; [exact Hc|discriminate]].
  destruct (Pos.eqb (attUser att) user); [|split; [exact Hc|discriminate]].
  destruct (subjects db !! attSubject att) as [s|] eqn:Hs.
  - set (s' := with_counts s _ _).
    destruct (consistent_step db (attSubject att) s s' id None)
      as [Hsave Hc']; try assumption; try reflexivity.
    + intros r Hr. congruence.
    + intros r Hr. discriminate.
    + rewrite Hatt. subst s'. count_cases.
    + rewrite Hatt. subst s'. destruct (attStatus att) eqn:Ho; count_cases.
    + rewrite (saveSubject_ignores_records _ _ _ _ _ Hsave). simpl.
      split; [exact Hc'|discriminate].
  - simpl. split; [|discriminate].
    now apply (consistent_orphan_removed db id att).
Qed.

Lemma deleteAttendance_keeps_consistent_witness :
  consistent db2 /\ consistent (deleteAttendance db2 1 1).1.
Proof.
  assert (Hc : consistent db2)
    by (apply (@bool_decide_unpack _ (consistent_dec db2)); vm_compute; exact I).
  split; [exact Hc|].
  exact (proj1 (deleteAttendance_keeps_consistent db2 1 1 Hc)).
Defined.


Lemma markAttendance_keeps_consistent_witness :
  consistent db2 /\ consistent (markAttendance (fun d => d) db2 1 1 0 absent None).1.
Proof.
  assert (Hc : consistent db2)
    by (apply (@bool_decide_unpack _ (consistent_dec db2)); vm_compute; exact I).
  split; [exact Hc|].
  exact (proj1 (markAttendance_keeps_consistent (fun d => d) db2 1 1 0 absent None Hc)).
Defined.


Lemma untouched_refl (user : positive) (db : DB) : untouched user db db.
Proof. split; auto. Qed.

Lemma untouched_record (user : positive) (db db' : DB) (id : positive)
    (change : option DailyAttendance) :
  untouched user db db' ->
  (forall r, attendances db !! id = Some r -> attUser r = user) ->
  untouched user db
    (mkDB (subjects db') (change_record (attendances db') id change)).
Proof.
  intros [Hsub Hrec] Hold. split; simpl; [exact Hsub|].
  intros id' r' Hr' Hne.
  assert (id <> id') by (intros ->; apply Hne; eauto).
  destruct change; simpl.
  - rewrite lookup_insert_ne by assumption. now apply Hrec.
  - rewrite lookup_delete_ne by assumption. now apply Hrec.
Qed.

Lemma untouched_save (user : positive) (db db' db'' : DB) (subjectId : positive)
    (s s' : Subject) :
  subjects db !! subjectId = Some s -> subjectUser s = user ->
  subjects db' = subjects db ->
  untouched user db db' ->
  saveSubject db' subjectId s' = Some db'' ->
  untouched user db db''.
Proof.
  intros Hs Hu Hsame [Hsub Hrec]. unfold saveSubject.
  destruct (schema_valid s'); [|discriminate].
  intros H. injection H as <-. split; simpl.
  - intros sid0 s0 H0 Hne. rewrite lookup_insert_ne by congruence.
    now rewrite Hsame.
  - exact Hrec.
Qed.

(** X15: A request of one user changes no subject and no attendance record of
    another user, whichever of the three handlers serves it. *)
Theorem requests_leave_other_users_alone (startOfDay : Z -> Z) (db : DB)
    (user subjectId id : positive) (date : Z) (status : Status)
    (change : option Status) (notes : option string) :
  consistent db ->
  untouched user db
    (markAttendance startOfDay db user subjectId date status notes).1
  /\ untouched user db (updateAttendance db user id change notes).1
  /\ untouched user db (deleteAttendance db user id).1.
Proof.
  intros Hc. split; [|split].
  - unfold markAttendance.
    destruct (findSubject db subjectId user) as [s|] eqn:Hf;
      [|apply untouched_refl].
    apply findSubject_Some in Hf as [Hs Hu].
    destruct (findAttendance db user subjectId (startOfDay date))
      as [[id0 existing]|] eqn:Hfa.
    + apply findAttendance_Some in Hfa as (Hr & Hru & _).
      set (updated := mkAttendance _ _ _ _ _).
      assert (Hrec : untouched user db
                       (mkDB (subjects db) (<[id0 := updated]> (attendances db)))).
      { apply (untouched_record user db db id0 (Some updated));
          [apply untouched_refl|]. intros r Hr'. congruence. }
      destruct (notes_valid (attNotes updated)); [|apply untouched_refl].
      destruct (attStatus existing), status; try exact Hrec.
      all: destruct (saveSubject _ _ _) as [db''|] eqn:Hsave; [|exact Hrec].
      all: exact (untouched_save user db
                    (mkDB (subjects db) (<[id0 := updated]> (attendances db)))
                    db'' subjectId s _ Hs Hu eq_refl Hrec Hsave).
    + destruct (notes_valid notes); [|apply untouched_refl].
      set (id0 := fresh (dom (attendances db))).
      assert (Hfresh : attendances db !! id0 = None)
        by apply not_elem_of_dom, is_fresh.
      set (created := mkAttendance _ _ _ _ _).
      assert (Hrec : untouched user db
                       (mkDB (subjects db) (<[id0 := created]> (attendances db)))).
      { apply (untouched_record user db db id0 (Some created));
          [apply untouched_refl|]. intros r Hr'. congruence. }
      destruct (saveSubject _ _ _) as [db''|] eqn:Hsave; [|exact Hrec].
      exact (untouched_save user db
               (mkDB (subjects db) (<[id0 := created]> (attendances db)))
               db'' subjectId s _ Hs Hu eq_refl Hrec Hsave).
  - unfold updateAttendance.
    destruct (attendances db !! id) as [att|] eqn:Hatt; [|apply untouched_refl].
    destruct (Pos.eqb_spec (attUser att) user) as [Hu|_]; [|apply untouched_refl].
    destruct (subjects db !! attSubject att) as [s|] eqn:Hs; [|apply untouched_refl].
    pose proof (proj2 Hc id att Hatt) as [_ Hown]. rewrite Hs in Hown.
    set (updated := mkAttendance _ _ _ _ _).
    assert (Hrec : untouched user db
                     (mkDB (subjects db) (<[id := updated]> (attendances db)))).
    { apply (untouched_record user db db id (Some updated));
        [apply untouched_refl|]. intros r Hr'. congruence. }
    destruct (notes_valid (attNotes updated)); [|apply untouched_refl].
    destruct (attStatus att), change as [[]|]; try exact Hrec.
    all: destruct (saveSubject _ _ _) as [db''|] eqn:Hsave; [|exact Hrec].
    all: exact (untouched_save user db
                  (mkDB (subjects db) (<[id := updated]> (attendances db)))
                  db'' (attSubject att) s _ Hs ltac:(congruence) eq_refl Hrec Hsave).
  - unfold deleteAttendance.
    destruct (attendances db !! id) as [att|] eqn:Hatt; [|apply untouched_refl].
    destruct (Pos.eqb_spec (attUser att) user) as [Hu|_]; [|apply untouched_refl].
    assert (Hold : forall r, attendances db !! id = Some r -> attUser r = user)
      by (intros r Hr'; congruence).
    destruct (subjects db !! attSubject att) as [s|] eqn:Hs.
    + pose proof (proj2 Hc id att Hatt) as [_ Hown]. rewrite Hs in Hown.
      destruct (saveSubject _ _ _) as [db''|] eqn:Hsave; [|apply untouched_refl].
      simpl.
      apply (untouched_record user db db'' id None); [|exact Hold].
      exact (untouched_save user db db db'' (attSubject att) s _ Hs
               ltac:(congruence) eq_refl (untouched_refl user db) Hsave).
    + simpl. apply (untouched_record user db db id None);
        [apply untouched_refl|exact Hold].
Qed.

Lemma requests_leave_other_users_alone_witness :
  consistent db2
  /\ untouched 2 db2 (markAttendance (fun d => d) db2 2 1 0 absent None).1
  /\ untouched 2 db2 (deleteAttendance db2 2 1).1.
Proof.
  assert (Hc : consistent db2)
    by (apply (@bool_decide_unpack _ (consistent_dec db2)); vm_compute; exact I).
  split; [exact Hc|].
  destruct (requests_leave_other_users_alone (fun d => d) db2 2 1 1 0 absent None
              None Hc) as (H1 & _ & H3).
  split; assumption.
Defined.




(** * The summaries *)

Lemma fold_left_sum {A : Type} (f : A -> Z) (l : list A) (a : Z) :
  fold_left (fun acc x => acc + f x) l a
  = a + fold_left (fun acc x => acc + f x) l 0.
Proof.
  revert a. induction l as [|x l IH]; intros a; simpl; [lia|].
  rewrite (IH (a + f x)), (IH (0 + f x)). lia.
Qed.





Lemma classesNeeded_loop_ge (fuel : nat) :
  forall (attended total : Z) (minimum : Q) (needed N : Z),
    classesNeeded_loop fuel attended total minimum needed = Some N -> needed <= N.
Proof.
  induction fuel as [|fuel IH]; intros attended total minimum needed N H;
    [discriminate|].
  simpl in H. destruct (nlt _ _).
  - apply IH in H. lia.
  - injection H as <-. lia.
Qed.

Lemma safeBunks_loop_ge (fuel : nat) :
  forall (attended total : Z) (minimum : Q) (b R : Z),
    safeBunks_loop fuel attended total minimum b = Some R -> b <= R.
Proof.
  induction fuel as [|fuel IH]; intros attended total minimum b R H; [discriminate|].
  simpl in H. destruct (nge _ _).
  - apply IH in H. lia.
  - injection H as <-. lia.
Qed.

(** What the two getters say about the threshold, whatever the subject:
    [classesNeeded] is [0] exactly when the rounded percentage is at or above
    the minimum, and [safeBunks] is [0] when it is below. *)
Lemma getters_and_threshold (fuel : nat) (s : Subject) (bunks needed : Z) :
  safeBunks fuel s = Some bunks ->
  classesNeeded fuel s = Some needed ->
  0 <= bunks /\ 0 <= needed
  /\ (needed = 0 <-> nge (attendancePercentage s) (Fin (minimumAttendance s)) = true)
  /\ (nge (attendancePercentage s) (Fin (minimumAttendance s)) = false -> bunks = 0).
Proof.
  unfold safeBunks, classesNeeded.
  destruct (percentage_is_finite s) as [q ->]. simpl.
  destruct (Qltb q (minimumAttendance s)); simpl.
  - intros Hb Hn. injection Hb as <-.
    destruct (classesNeeded_loop _ _ _ _ _) as [N|] eqn:HN; [|discriminate].
    injection Hn as <-. apply classesNeeded_loop_ge in HN.
    split; [lia|]. split; [lia|]. split; [split; [lia|discriminate]|reflexivity].
  - intros Hb Hn. injection Hn as <-. apply safeBunks_loop_ge in Hb.
    split; [lia|]. split; [lia|]. split; [tauto|discriminate].
Qed.

(** X18: [getSubjectStats]: the flag [isAboveMinimum] is true exactly when
    [classesNeeded] is [0], a subject below its minimum has no safe bunk, and
    the missed and the attended lectures add up to the total. *)
Theorem getSubjectStats_flags (fuel : nat) (db : DB) (user id : positive)
    (st : SubjectStats) :
  getSubjectStats fuel db user id = Some (Json 200 st) ->
  (ssIsAboveMinimum st = true <-> ssClassesNeeded st = 0)
  /\ (ssIsAboveMinimum st = false -> ssSafeBunks st = 0)
  /\ 0 <= ssSafeBunks st /\ 0 <= ssClassesNeeded st
  /\ ssMissedLectures st + ssAttendedLectures st = ssTotalLectures st.
Proof.
  unfold getSubjectStats.
  destruct (findSubject db id user) as [s|]; [|discriminate].
  destruct (safeBunks fuel s) as [bunks|] eqn:Hb; [|discriminate].
  destruct (classesNeeded fuel s) as [needed|] eqn:Hn; [|discriminate].
  intros H. injection H as <-. cbn.
  destruct (getters_and_threshold fuel s bunks needed Hb Hn)
    as (H0 & H1 & Hiff & Hbelow).
  split; [symmetry; exact Hiff|]. split; [exact Hbelow|]. repeat split; lia.
Qed.

Lemma getSubjectStats_flags_witness :
  exists st : SubjectStats,
    getSubjectStats 41 (db1 (subj 20 40 75)) 1 1 = Some (Json 200 st)
    /\ (ssIsAboveMinimum st = false -> ssSafeBunks st = 0).
Proof.
  destruct (getSubjectStats 41 (db1 (subj 20 40 75)) 1 1) as [[c st| |]|] eqn:H;
    try (vm_compute in H; discriminate).
  assert (c = 200) as -> by (vm_compute in H; congruence).
  exists st. split; [reflexivity|].
  exact (proj1 (proj2 (getSubjectStats_flags 41 _ 1%positive 1%positive st H))).
Defined.

Lemma stat_map_tally (fuel : nat) (subs : list Subject) :
  forall (t t' : Tally) (entries : list SubjectStat),
    stat_map fuel t subs = Some (t', entries) ->
    tallyTotal t'
    = tallyTotal t + fold_left (fun acc s => acc + totalLectures s) subs 0
    /\ tallyAttended t'
       = tallyAttended t + fold_left (fun acc s => acc + attendedLectures s) subs 0
    /\ length entries = length subs
    /\ tallyAbove t'
       = tallyAbove t
         + Z.of_nat (length (List.filter (fun e => statClassesNeeded e =? 0) entries))
    /\ tallyAbove t' + tallyBelow t'
       = tallyAbove t + tallyBelow t + Z.of_nat (length subs)
    /\ Forall (fun e => 0 <= statSafeBunks e /\ 0 <= statClassesNeeded e
                        /\ (statSafeBunks e = 0 \/ statClassesNeeded e = 0)) entries.
Proof.
  induction subs as [|s subs IH]; intros t t' entries H; simpl in H.
  - injection H as <- <-. simpl. repeat split; try lia. constructor.
  - unfold stat_step in H.
    destruct (safeBunks fuel s) as [bunks|] eqn:Hb; [|discriminate].
    destruct (classesNeeded fuel s) as [needed|] eqn:Hn; [|discriminate].
    destruct (stat_map fuel _ subs) as [[t'' es]|] eqn:Hmap; [|discriminate].
    injection H as <- <-.
    destruct (IH _ _ _ Hmap) as (H1 & H2 & H3 & H4 & H5 & H6). simpl in *.
    destruct (getters_and_threshold fuel s bunks needed Hb Hn)
      as (Hb0 & Hn0 & Hiff & Hbelow).
    rewrite (fold_left_sum totalLectures), (fold_left_sum attendedLectures).
    destruct (nge (attendancePercentage s) (Fin (minimumAttendance s))) eqn:Habove.
    + assert (needed = 0) as -> by now apply Hiff. simpl.
      repeat split; try lia. constructor; [simpl; lia|exact H6].
    + assert (needed <> 0) by (intros E; apply Hiff in E; discriminate).
      destruct (Z.eqb_spec needed 0) as [?|_]; [contradiction|].
      repeat split; try lia.
      constructor; [simpl; split; [lia|split; [lia|left; now apply Hbelow]]|exact H6].
Qed.

Lemma filter_status_partition (records : list DailyAttendance) :
  (length (List.filter (has_status present) records)
   + length (List.filter (has_status absent) records))%nat
  = length records.
Proof.
  induction records as [|r records IH]; [reflexivity|].
  cbn [List.filter].
  assert (E : has_status absent r = negb (has_status present r))
    by (unfold has_status; now destruct (attStatus r)).
  rewrite E. destruct (has_status present r); cbn [negb length]; lia.
Qed.

(** X19: [getAttendanceStats]: the totals are those of [getSubjects] on the same
    subjects; there is one entry per subject; every subject is counted either
    above or below its minimum, and above exactly when its entry reports no
    class needed; no entry reports both safe bunks and classes needed; the
    recent records are all present or absent. *)
Theorem getAttendanceStats_summary (fuel : nat) (subs : list Subject)
    (recentRecords : list DailyAttendance) (r : Stats) :
  getAttendanceStats fuel subs recentRecords = Some r ->
  statsOverall r = getSubjects subs
  /\ length (subjectStats r) = length subs
  /\ subjectsAboveMin r + subjectsBelowMin r = totalSubjects r
  /\ subjectsAboveMin r
     = Z.of_nat (length (List.filter (fun e => statClassesNeeded e =? 0)
                           (subjectStats r)))
  /\ Forall (fun e => 0 <= statSafeBunks e /\ 0 <= statClassesNeeded e
                      /\ (statSafeBunks e = 0 \/ statClassesNeeded e = 0))
       (subjectStats r)
  /\ recentPresent r + recentAbsent r = recentTotal r.
Proof.
  unfold getAttendanceStats.
  destruct (stat_map fuel _ subs) as [[t entries]|] eqn:Hmap; [|discriminate].
  intros H. injection H as <-. cbn.
  destruct (stat_map_tally fuel subs _ _ _ Hmap) as (H1 & H2 & H3 & H4 & H5 & H6).
  simpl in *. unfold getSubjects. rewrite H1, H2.
  repeat split; try assumption; try lia.
  pose proof (filter_status_partition recentRecords). lia.
Qed.

Lemma getAttendanceStats_summary_witness :
  exists r : Stats,
    getAttendanceStats 41 [subj 20 40 75; subj 38 40 75] [] = Some r
    /\ subjectsAboveMin r + subjectsBelowMin r = totalSubjects r.
Proof.
  destruct (getAttendanceStats 41 [subj 20 40 75; subj 38 40 75] []) as [r|] eqn:H;
    [|vm_compute in H; discriminate].
  exists r. split; [reflexivity|].
  exact (proj1 (proj2 (proj2 (getAttendanceStats_summary 41 _ _ r H)))).
Defined.


Lemma filter_partition {A : Type} (f : A -> bool) (l : list A) :
  (length (List.filter f l) + length (List.filter (fun x => negb (f x)) l))%nat
  = length l.
Proof.
  induction l as [|x l IH]; [reflexivity|].
  cbn [List.filter]. destruct (f x); cbn [negb length]; lia.
Qed.

Lemma bulk_map_entries (fuel : nat) (subs : list Subject) :
  forall es : list BulkEntry,
    bulk_map fuel subs = Some es ->
    length es = length subs
    /\ forall (i : nat) (s : Subject) (e : BulkEntry),
         subs !! i = Some s -> es !! i = Some e -> bulk_entry fuel s = Some e.
Proof.
  induction subs as [|s subs IH]; intros es H; simpl in H.
  - injection H as <-. split; [reflexivity|]. intros i s e Hs. discriminate.
  - destruct (bulk_entry fuel s) as [e0|] eqn:He; [|discriminate].
    destruct (bulk_map fuel subs) as [es0|]; [|discriminate].
    injection H as <-. destruct (IH es0 eq_refl) as [Hlen Hall].
    split; [simpl; lia|].
    intros [|i] s' e Hs' He'; simpl in *.
    + congruence.
    + now apply (Hall i).
Qed.

(** X20: [bulkPredictBunk]: one prediction per subject, each with the verdict,
    the safe bunks and the percentages that [predictBunk] gives for that
    subject, and every subject counted either safe or risky. *)
Theorem bulkPredictBunk_summary (fuel : nat) (subs : list Subject)
    (r : BulkPrediction) :
  bulkPredictBunk fuel subs = Some r ->
  length (predictions r) = length subs
  /\ safeSubjects r + riskySubjects r = bulkTotalSubjects r
  /\ forall (i : nat) (s : Subject) (e : BulkEntry) (p : Prediction),
       subs !! i = Some s -> predictions r !! i = Some e ->
       predict fuel s = Some p ->
       bulkCanBunk e = canBunk p
       /\ bulkSafeBunks e = predSafeBunks p
       /\ bulkCurrentAttendance e = currentAttendance p
       /\ bulkAfterBunkAttendance e = afterBunkAttendance p.
Proof.
  unfold bulkPredictBunk.
  destruct (bulk_map fuel subs) as [es|] eqn:Hmap; [|discriminate].
  intros H. injection H as <-. cbn.
  destruct (bulk_map_entries fuel subs es Hmap) as [Hlen Hall].
  split; [exact Hlen|]. split.
  - pose proof (filter_partition bulkCanBunk es). lia.
  - intros i s e p Hs He Hp. specialize (Hall i s e Hs He).
    unfold bulk_entry in Hall. unfold predict in Hp.
    destruct (safeBunks fuel s) as [bunks|]; [|discriminate].
    destruct (recoverClasses fuel s _) as [c|]; [|discriminate].
    injection Hall as <-. injection Hp as <-. now cbn.
Qed.

Lemma bulkPredictBunk_summary_witness :
  exists r : BulkPrediction,
    bulkPredictBunk 11 [subj 30 40 75; subj 38 40 75] = Some r
    /\ safeSubjects r + riskySubjects r = bulkTotalSubjects r.
Proof.
  destruct (bulkPredictBunk 11 [subj 30 40 75; subj 38 40 75]) as [r|] eqn:H;
    [|vm_compute in H; discriminate].
  exists r. split; [reflexivity|].
  exact (proj1 (proj2 (bulkPredictBunk_summary 11 _ r H))).
Defined.





(** * The timetable *)

Section TimetableFacts.

Variable lt : string -> string -> bool.
Variable accepted : Timetable -> bool.

Lemma overlap_sym (e1 e2 : Timetable) : overlap lt e1 e2 = overlap lt e2 e1.
Proof using Type. unfold overlap. apply andb_comm. Qed.

(** Storing [e] under [id] keeps the timetable free of clashes when [e]
    overlaps no other entry. *)
Lemma clash_free_insert (timetable : gmap positive Timetable) (id : positive)
    (e : Timetable) :
  clash_free lt timetable ->
  (forall j e2, timetable !! j = Some e2 -> j <> id ->
     ttUser e = ttUser e2 -> ttDay e = ttDay e2 ->
     ttActive e = true -> ttActive e2 = true -> overlap lt e e2 = false) ->
  clash_free lt (<[id := e]> timetable).
Proof using Type.
  intros Hfree Hnew i e1 Hi j e2 Hj Hij Hu Hd Ha1 Ha2.
  destruct (decide (i = id)) as [->|Hi']; destruct (decide (j = id)) as [->|Hj'].
  - congruence.
  - rewrite lookup_insert_eq in Hi. injection Hi as <-.
    rewrite lookup_insert_ne in Hj by congruence.
    apply (Hnew j e2); auto.
  - rewrite lookup_insert_eq in Hj. injection Hj as <-.
    rewrite lookup_insert_ne in Hi by congruence.
    rewrite overlap_sym. apply (Hnew i e1); auto.
  - rewrite lookup_insert_ne in Hi by congruence.
    rewrite lookup_insert_ne in Hj by congruence.
    apply (Hfree i e1 Hi j e2 Hj); auto.
Qed.

(** When the conflict query finds nothing, no entry it looks at matches its
    filter. *)
Lemma conflicts_nil (timetable : gmap positive Timetable) (user : positive)
    (day : Day) (startTime endTime : string) (except : option positive)
    (j : positive) (e : Timetable) :
  conflicts lt timetable user day startTime endTime except = [] ->
  timetable !! j = Some e -> except <> Some j ->
  conflict lt user day startTime endTime e = false.
Proof using Type.
  intros Hnil Hj Hex.
  destruct (conflict lt user day startTime endTime e) eqn:Hc; [|reflexivity].
  exfalso.
  assert (Hin : In (j, e) (conflicts lt timetable user day startTime endTime except)).
  { unfold conflicts. apply filter_In. split.
    - apply list_elem_of_In, elem_of_map_to_list. exact Hj.
    - simpl. rewrite Hc. simpl. destruct except as [id|]; [|reflexivity].
      apply negb_true_iff, Pos.eqb_neq. congruence. }
  rewrite Hnil in Hin. exact Hin.
Qed.

(** An entry that passes the conflict query overlaps no active entry of its
    user and day. *)
Lemma conflict_overlap (user : positive) (day : Day) (startTime endTime : string)
    (e new : Timetable) :
  conflict lt user day startTime endTime e = false ->
  ttUser new = user -> ttDay new = day ->
  ttStart new = startTime -> ttEnd new = endTime ->
  ttUser new = ttUser e -> ttDay new = ttDay e -> ttActive e = true ->
  overlap lt new e = false.
Proof using Type.
  intros Hc Hu Hd Hs He Hue Hde Ha. unfold conflict in Hc. unfold overlap.
  rewrite Hs, He.
  replace (Pos.eqb (ttUser e) user) with true in Hc
    by (symmetry; apply Pos.eqb_eq; congruence).
  rewrite bool_decide_eq_true_2 in Hc by congruence.
  rewrite Ha in Hc. simpl in Hc.
  rewrite andb_comm. exact Hc.
Qed.

Lemma createTimetableEntry_clash_free (db : DB)
    (timetable : gmap positive Timetable) (user subjectId : positive)
    (day : Day) (startTime endTime : string) :
  clash_free lt timetable ->
  clash_free lt
    (createTimetableEntry lt accepted db timetable user subjectId day
       startTime endTime).1.
Proof using Type.
  intros Hfree. unfold createTimetableEntry.
  destruct (findSubject db subjectId user); [|exact Hfree].
  destruct (conflicts lt timetable user day startTime endTime None) eqn:Hq;
    [|exact Hfree].
  destruct (stored accepted _); [|exact Hfree].
  cbn [fst]. apply clash_free_insert; [exact Hfree|].
  intros j e2 Hj _ Hu Hd _ Ha2.
  apply (conflict_overlap user day startTime endTime); auto.
  apply (conflicts_nil timetable user day startTime endTime None j); auto.
Qed.

Lemma stored_times (entry : Timetable) :
  stored accepted entry = true -> ttStart entry <> EmptyString /\ ttEnd entry <> EmptyString.
Proof using Type.
  unfold stored. intros H.
  apply andb_true_iff in H as [H _]. apply andb_true_iff in H as [Hs He].
  split; intros Heq; rewrite Heq in *; discriminate.
Qed.

Lemma or_current_assigned (sent : option string) (current : string) :
  assigned sent current <> EmptyString -> or_current sent current = assigned sent current.
Proof using Type.
  destruct sent as [s|]; simpl; [|reflexivity].
  intros Hs. destruct (String.eqb_spec s EmptyString); [contradiction|reflexivity].
Qed.

Lemma truthy_unchanged (sent : option string) (current : string) :
  truthy sent = false -> assigned sent current <> EmptyString ->
  assigned sent current = current.
Proof using Type.
  destruct sent as [s|]; simpl; [|reflexivity].
  intros Ht Hs. apply negb_false_iff, String.eqb_eq in Ht. contradiction.
Qed.

Lemma updateTimetableEntry_clash_free (db : DB)
    (timetable : gmap positive Timetable) (user id : positive)
    (subjectId : option positive) (day : option Day)
    (startTime endTime : option string) :
  clash_free lt timetable ->
  clash_free lt
    (updateTimetableEntry lt accepted db timetable user id subjectId day
       startTime endTime).1.
Proof using Type.
  intros Hfree. unfold updateTimetableEntry.
  destruct (timetable !! id) as [entry|] eqn:Hid; [|exact Hfree].
  destruct (Pos.eqb (ttUser entry) user) eqn:Huser; [|exact Hfree].
  apply Pos.eqb_eq in Huser.
  match goal with |- context [if ?b then (timetable, AppError "Subject not found" 404) else _] =>
    destruct b end; [exact Hfree|].
  match goal with |- context [if ?b then (timetable, AppError "Time slot conflicts with existing entry" 400) else _] =>
    destruct b eqn:Hclash end; [exact Hfree|].
  match goal with |- context [stored accepted ?x] =>
    set (entry' := x); destruct (stored accepted entry') eqn:Hstored end;
    [|exact Hfree].
  cbn [fst]. apply clash_free_insert; [exact Hfree|].
  intros j e2 Hj Hne Hu Hd Ha Ha2.
  destruct (stored_times _ Hstored) as [Hs He].
  cbn [entry' ttStart ttEnd] in Hs, He.
  destruct (truthy startTime || truthy endTime
            || match day with Some _ => true | None => false end) eqn:Hsent.
  - destruct (conflicts lt timetable user (assigned day (ttDay entry))
                (or_current startTime (ttStart entry))
                (or_current endTime (ttEnd entry)) (Some id)) eqn:Hq;
      [|discriminate].
    apply (conflict_overlap user (assigned day (ttDay entry))
             (or_current startTime (ttStart entry))
             (or_current endTime (ttEnd entry))); auto.
    + apply (conflicts_nil timetable user _ _ _ (Some id) j); auto. congruence.
    + symmetry. apply or_current_assigned. exact Hs.
    + symmetry. apply or_current_assigned. exact He.
  - apply orb_false_iff in Hsent as [Hsent Hday].
    apply orb_false_iff in Hsent as [Hstart Hend].
    destruct day as [d|]; [discriminate|].
    assert (Hover : overlap lt entry e2 = false).
    { apply (Hfree id entry Hid j e2 Hj); auto. }
    unfold overlap in *. cbn [entry' ttStart ttEnd].
    rewrite (truthy_unchanged startTime (ttStart entry) Hstart Hs).
    rewrite (truthy_unchanged endTime (ttEnd entry) Hend He).
    exact Hover.
Qed.

Lemma deleteTimetableEntry_clash_free (timetable : gmap positive Timetable)
    (user id : positive) :
  clash_free lt timetable ->
  clash_free lt (deleteTimetableEntry accepted timetable user id).1.
Proof using Type.
  intros Hfree. unfold deleteTimetableEntry.
  destruct (timetable !! id) as [entry|] eqn:Hid; [|exact Hfree].
  destruct (Pos.eqb (ttUser entry) user); [|exact Hfree].
  destruct (stored accepted _); [|exact Hfree].
  cbn [fst]. apply clash_free_insert; [exact Hfree|].
  intros j e2 _ _ _ _ Ha. discriminate Ha.
Qed.

End TimetableFacts.

(** X22: No request to the timetable handlers makes two active entries of
    a user overlap: when no two active entries of one user on one day
    overlap (as the conflict query compares their times) before
    [createTimetableEntry], [updateTimetableEntry] or [deleteTimetableEntry]
    runs, none do afterwards, whatever the request and whatever its answer.
    This holds for every order in which the database may compare strings and
    for every outcome of the validation of the other fields. *)
Theorem timetable_stays_clash_free (lt : string -> string -> bool)
    (accepted : Timetable -> bool) (db : DB)
    (timetable : gmap positive Timetable) (user id subjectId : positive)
    (day : Day) (startTime endTime : string)
    (newSubject : option positive) (newDay : option Day)
    (newStart newEnd : option string) :
  clash_free lt timetable ->
  clash_free lt
    (createTimetableEntry lt accepted db timetable user subjectId day
       startTime endTime).1
  /\ clash_free lt
       (updateTimetableEntry lt accepted db timetable user id newSubject newDay
          newStart newEnd).1
  /\ clash_free lt (deleteTimetableEntry accepted timetable user id).1.
Proof.
  intros Hfree. split; [|split].
  - apply createTimetableEntry_clash_free. exact Hfree.
  - apply updateTimetableEntry_clash_free. exact Hfree.
  - apply deleteTimetableEntry_clash_free. exact Hfree.
Qed.

Lemma timetable_stays_clash_free_witness :
  clash_free String.ltb timetable1
  /\ clash_free String.ltb
       (createTimetableEntry String.ltb (fun _ => true) (db1 (subj 1 1 75))
          timetable1 1 1 Monday "10:00" "11:00").1
  /\ clash_free String.ltb
       (updateTimetableEntry String.ltb (fun _ => true) (db1 (subj 1 1 75))
          timetable1 1 1 None (Some Tuesday) None (Some "10:30"%string)).1
  /\ clash_free String.ltb
       (deleteTimetableEntry (fun _ => true) timetable1 1 1).1.
Proof.
  assert (Hfree : clash_free String.ltb timetable1)
    by (apply (@bool_decide_unpack _ (clash_free_dec String.ltb timetable1));
        vm_compute; exact I).
  split; [exact Hfree|].
  exact (timetable_stays_clash_free String.ltb (fun _ => true) (db1 (subj 1 1 75))
           timetable1 1 1 1 Monday "10:00" "11:00" None (Some Tuesday) None
           (Some "10:30"%string) Hfree).
Defined.

(** ** Times with a two-digit hour *)

Lemma char_between_codes (lo hi c : ascii) :
  char_between lo hi c = true ->
  Z.of_N (N_of_ascii lo) <= Z.of_N (N_of_ascii c) <= Z.of_N (N_of_ascii hi).
Proof.
  unfold char_between. intros H. apply andb_true_iff in H as [H1 H2].
  apply N.leb_le in H1, H2. lia.
Qed.

Lemma not_colon (c : ascii) :
  Z.of_N (N_of_ascii c) <> 58 -> Ascii.eqb c ":" = false.
Proof.
  intros H. destruct (Ascii.eqb_spec c ":") as [->|]; [|reflexivity].
  exfalso. apply H. reflexivity.
Qed.

(** A time with a two-digit hour is five characters, and the hook reads it
    as the minutes since midnight. *)
Lemma padded_shape (time : string) :
  padded time = true ->
  exists h1 h2 m1 m2 : ascii,
    time = String h1 (String h2 (String ":" (String m1 (String m2 EmptyString))))
    /\ 48 <= Z.of_N (N_of_ascii h1) <= 50
    /\ 48 <= Z.of_N (N_of_ascii h2) <= 57
    /\ 48 <= Z.of_N (N_of_ascii m1) <= 53
    /\ 48 <= Z.of_N (N_of_ascii m2) <= 57.
Proof.
  unfold padded. intros H. apply andb_true_iff in H as [Hf Hl].
  destruct time as [|h1 [|h2 [|c [|m1 [|m2 [|x rest]]]]]]; try discriminate.
  cbn [time_format] in Hf.
  apply andb_true_iff in Hf as [Hf Hm2].
  apply andb_true_iff in Hf as [Hf Hm1].
  apply andb_true_iff in Hf as [Hh Hc].
  apply Ascii.eqb_eq in Hc. subst c.
  apply char_between_codes in Hm1, Hm2.
  exists h1, h2, m1, m2. split; [reflexivity|].
  change (Z.of_N (N_of_ascii "0")) with 48 in *.
  change (Z.of_N (N_of_ascii "5")) with 53 in *.
  change (Z.of_N (N_of_ascii "9")) with 57 in *.
  apply orb_true_iff in Hh as [Hh|Hh]; apply andb_true_iff in Hh as [Hh1 Hh2].
  - apply char_between_codes in Hh1, Hh2.
    change (Z.of_N (N_of_ascii "0")) with 48 in *.
    change (Z.of_N (N_of_ascii "1")) with 49 in *.
    change (Z.of_N (N_of_ascii "9")) with 57 in *.
    lia.
  - apply Ascii.eqb_eq in Hh1. subst h1.
    apply char_between_codes in Hh2.
    change (Z.of_N (N_of_ascii "0")) with 48 in *.
    change (Z.of_N (N_of_ascii "2")) with 50 in *.
    change (Z.of_N (N_of_ascii "3")) with 51 in *.
    lia.
Qed.

Lemma minutes_padded (h1 h2 m1 m2 : ascii) :
  48 <= Z.of_N (N_of_ascii h1) <= 50 ->
  48 <= Z.of_N (N_of_ascii h2) <= 57 ->
  minutes (String h1 (String h2 (String ":" (String m1 (String m2 EmptyString)))))
  = ((Z.of_N (N_of_ascii h1) - 48) * 10 + (Z.of_N (N_of_ascii h2) - 48)) * 60
    + ((Z.of_N (N_of_ascii m1) - 48) * 10 + (Z.of_N (N_of_ascii m2) - 48)).
Proof.
  intros H1 H2. unfold minutes. cbn [before_colon after_colon].
  rewrite (not_colon h1) by lia. rewrite (not_colon h2) by lia.
  change (Ascii.eqb ":" ":") with true. cbv iota.
  cbn [digits]. lia.
Qed.

(** Between two times with a two-digit hour, the order of the strings is the
    order of the minutes. *)
Lemma padded_ltb (s t : string) :
  padded s = true -> padded t = true ->
  String.ltb s t = (minutes s <? minutes t).
Proof.
  intros Hs Ht.
  destruct (padded_shape s Hs) as (a1 & a2 & a3 & a4 & -> & Ha1 & Ha2 & Ha3 & Ha4).
  destruct (padded_shape t Ht) as (b1 & b2 & b3 & b4 & -> & Hb1 & Hb2 & Hb3 & Hb4).
  rewrite !minutes_padded by assumption.
  unfold String.ltb. cbn [String.compare]. unfold Ascii.compare.
  change (N_of_ascii ":" ?= N_of_ascii ":")%N with Eq. cbv iota.
  destruct (N.compare_spec (N_of_ascii a1) (N_of_ascii b1));
    [destruct (N.compare_spec (N_of_ascii a2) (N_of_ascii b2));
       [destruct (N.compare_spec (N_of_ascii a3) (N_of_ascii b3));
          [destruct (N.compare_spec (N_of_ascii a4) (N_of_ascii b4))|..]|..]|..];
    symmetry; first [apply Z.ltb_lt; lia | apply Z.ltb_ge; lia].
Qed.

(** X23: With times written with a two-digit hour, [createTimetableEntry]
    refuses a slot exactly when it overlaps an active entry of the user on
    that day: for a subject of the user, when the two times of the request
    and the times of the entries in the timetable are of the form HH:mm, and
    the database compares strings character by character, the answer is the
    400 "Time slot conflicts with existing entry" if and only if some active
    entry of the user on that day starts before the end of the request and
    ends after its start, both in minutes since midnight as the pre-save hook
    computes them. *)
Theorem createTimetableEntry_refuses_overlaps (accepted : Timetable -> bool)
    (db : DB) (timetable : gmap positive Timetable) (user subjectId : positive)
    (day : Day) (startTime endTime : string) :
  is_Some (findSubject db subjectId user) ->
  padded startTime = true -> padded endTime = true ->
  (forall i e, timetable !! i = Some e ->
     padded (ttStart e) = true /\ padded (ttEnd e) = true) ->
  (createTimetableEntry String.ltb accepted db timetable user subjectId day
     startTime endTime).2
  = AppError "Time slot conflicts with existing entry" 400
  <-> exists i e,
        timetable !! i = Some e /\ ttUser e = user /\ ttDay e = day
        /\ ttActive e = true
        /\ minutes (ttStart e) < minutes endTime
        /\ minutes startTime < minutes (ttEnd e).
Proof.
  intros [s Hsub] Hst Hen Hall. unfold createTimetableEntry. rewrite Hsub.
  split.
  - destruct (conflicts String.ltb timetable user day startTime endTime None)
      as [|[i e] rest] eqn:Hq.
    + destruct (stored accepted _); discriminate.
    + intros _.
      assert (Hin : In (i, e)
                (conflicts String.ltb timetable user day startTime endTime None))
        by (rewrite Hq; left; reflexivity).
      unfold conflicts in Hin. apply filter_In in Hin as [Hin Hc].
      apply list_elem_of_In, elem_of_map_to_list in Hin.
      cbn [snd fst] in Hc. rewrite andb_true_r in Hc. unfold conflict in Hc.
      apply andb_true_iff in Hc as [Hc H5].
      apply andb_true_iff in Hc as [Hc H4].
      apply andb_true_iff in Hc as [Hc H3].
      apply andb_true_iff in Hc as [H1 H2].
      apply Pos.eqb_eq in H1. apply bool_decide_eq_true_1 in H2.
      destruct (Hall i e Hin) as [Hps Hpe].
      rewrite padded_ltb in H4, H5 by assumption.
      apply Z.ltb_lt in H4, H5.
      exists i, e. auto 10.
  - intros (i & e & Hi & Hu & Hd & Ha & H4 & H5).
    destruct (conflicts String.ltb timetable user day startTime endTime None)
      as [|x rest] eqn:Hq; [|reflexivity].
    exfalso.
    assert (Hc : conflict String.ltb user day startTime endTime e = false).
    { apply (conflicts_nil String.ltb timetable user day startTime endTime None i);
        auto. }
    destruct (Hall i e Hi) as [Hps Hpe].
    unfold conflict in Hc. rewrite !padded_ltb in Hc by assumption.
    replace (Pos.eqb (ttUser e) user) with true in Hc
      by (symmetry; apply Pos.eqb_eq; exact Hu).
    rewrite bool_decide_eq_true_2 in Hc by exact Hd.
    rewrite Ha in Hc.
    apply Z.ltb_lt in H4, H5. rewrite H4, H5 in Hc. discriminate.
Qed.

Lemma createTimetableEntry_refuses_overlaps_witness :
  (createTimetableEntry String.ltb (fun _ => true) (db1 (subj 1 1 75))
     timetable1 1 1 Monday "09:30" "10:30").2
  = AppError "Time slot conflicts with existing entry" 400
  <-> exists i e,
        timetable1 !! i = Some e /\ ttUser e = 1%positive /\ ttDay e = Monday
        /\ ttActive e = true
        /\ minutes (ttStart e) < minutes "10:30"
        /\ minutes "09:30" < minutes (ttEnd e).
Proof.
  apply (createTimetableEntry_refuses_overlaps (fun _ => true)
           (db1 (subj 1 1 75)) timetable1 1 1 Monday "09:30" "10:30").
  - exists (subj 1 1 75). reflexivity.
  - reflexivity.
  - reflexivity.
  - intros i e H. unfold timetable1 in H.
    apply lookup_singleton_Some in H as [_ <-].
    split; reflexivity.
Defined.

(** Without the leading zero the strings are not in the order of the times:
    next to an entry from 9:00 to 10:30, a request for 10:00 to 11:00 on the
    same day finds no conflict. *)
Example one_digit_hour_is_compared_as_text :
  (createTimetableEntry String.ltb (fun _ => true) (db1 (subj 1 1 75))
     {[ 1%positive := mkTimetable 1 1 Monday "9:00" "10:30" true ]}
     1 1 Monday "10:00" "11:00").2
  = Json 201 (2%positive, mkTimetable 1 1 Monday "10:00" "11:00" true).
Proof. vm_compute. reflexivity. Qed.

(** ** [getTimetable]: the entries grouped by day *)

Lemma group_push {A : Type} (d day : Day) (entry : A) (acc : list (Day * list A)) :
  group d (push day entry acc)
  = if decide (day = d) then Some (default [] (group d acc) ++ [entry])
    else group d acc.
Proof.
  induction acc as [|[d' entries] rest IH]; cbn [push group].
  - destruct (decide (day = d)); reflexivity.
  - destruct (decide (d' = day)) as [->|Hne]; cbn [group].
    + destruct (decide (day = d)); reflexivity.
    + destruct (decide (d' = d)) as [->|Hne'].
      * destruct (decide (day = d)); [congruence|reflexivity].
      * exact IH.
Qed.

Lemma group_fold {A : Type} (day : A -> Day) (d : Day) (l : list A) :
  forall acc : list (Day * list A),
    let found := List.filter (fun e => bool_decide (day e = d)) l in
    group d (fold_left (fun acc entry => push (day entry) entry acc) l acc)
    = match group d acc, found with
      | None, [] => None
      | o, _ => Some (default [] o ++ found)
      end.
Proof.
  induction l as [|x l IH]; intros acc; cbn [fold_left List.filter].
  - destruct (group d acc); simpl; [rewrite app_nil_r|]; reflexivity.
  - cbv zeta in IH. rewrite IH, group_push.
    destruct (decide (day x = d)) as [Hx|Hx].
    + rewrite bool_decide_eq_true_2 by exact Hx.
      destruct (group d acc), (List.filter _ l); simpl;
        rewrite <- ?app_assoc, ?app_nil_r; reflexivity.
    + rewrite bool_decide_eq_false_2 by exact Hx. reflexivity.
Qed.

(** X24: [groupedByDay] of [getTimetable] lists under each day exactly the
    entries of that day, in the order of the timetable, and has no key for a
    day without entries. *)
Theorem groupedByDay_lists_each_day {A : Type} (day : A -> Day)
    (timetable : list A) (d : Day) :
  group d (groupByDay day timetable)
  = match List.filter (fun e => bool_decide (day e = d)) timetable with
    | [] => None
    | entries => Some entries
    end.
Proof.
  unfold groupByDay. rewrite group_fold. cbn [group default app].
  destruct (List.filter _ timetable); reflexivity.
Qed.
